(** * abstruse: configuration bootstrap and reconfiguration

    A shallow embedding of the server bootstrap code (package [core]:
    [InitDefaults], [InitConfig], [InitTLS], [InitDB], [InitAuthentication],
    [SaveConfig]) and of the master application's [ReadAndParseConfig]
    (package [app]), followed by the properties of the specification that
    are settled against them. *)

From Stdlib Require Import ZArith Ascii String.
From stdpp Require Import gmap strings list fin_maps pretty.

Local Open Scope string_scope.
#[local] Set Warnings "-register-all".

(** ** Strings and paths

    The Go standard library functions the bootstrap code calls on paths,
    for Unix ([Separator] is the slash, there is no volume name). *)

Module strings.

(** [strings.HasPrefix(s, prefix)]. *)
Fixpoint HasPrefix (s pre : string) {struct pre} : bool :=
  match pre with
  | EmptyString => true
  | String a pre' =>
      match s with
      | EmptyString => false
      | String b s' => Ascii.eqb a b && HasPrefix s' pre'
      end
  end.

(** [unicode.ToUpper] on one ASCII character. *)
Definition upper_ascii (c : ascii) : ascii :=
  let n := nat_of_ascii c in
  if (97 <=? n)%nat && (n <=? 122)%nat then ascii_of_nat (n - 32) else c.

(** [strings.ToUpper(s)] on ASCII text. *)
Fixpoint ToUpper (s : string) : string :=
  match s with
  | EmptyString => EmptyString
  | String c r => String (upper_ascii c) (ToUpper r)
  end.

(** What [strings.NewReplacer(old, new).Replace] does when [old] and [new]
    are one character each. *)
Fixpoint Replace (old new : ascii) (s : string) : string :=
  match s with
  | EmptyString => EmptyString
  | String c r =>
      String (if Ascii.eqb c old then new else c) (Replace old new r)
  end.

(** [strings.Split(s, "/")]. *)
Fixpoint Split_sep (s : string) : list string :=
  match s with
  | EmptyString => [EmptyString]
  | String c r =>
      if Ascii.eqb c "/" then EmptyString :: Split_sep r
      else match Split_sep r with
           | h :: t => String c h :: t
           | [] => [String c EmptyString]
           end
  end.

End strings.

Module filepath.

(** One element of the path under [Clean]: the elements kept so far are in
    [out], last element first. An empty element and [.] are dropped; [..]
    removes the element before it, is dropped at the root, and is kept at
    the start of a relative path. *)
Definition clean_elem (rooted : bool) (out : list string) (e : string)
  : list string :=
  if String.eqb e "" || String.eqb e "." then out
  else if String.eqb e ".." then
    match out with
    | top :: rest => if String.eqb top ".." then e :: out else rest
    | [] => if rooted then [] else [e]
    end
  else e :: out.

(** [filepath.Clean(path)]: the shortest path name equivalent to [path] by
    purely lexical processing. *)
Definition Clean (path : string) : string :=
  if String.eqb path "" then "."
  else
    let rooted := strings.HasPrefix path "/" in
    let out :=
      rev (fold_left (clean_elem rooted) (strings.Split_sep path) []) in
    if rooted then String "/" (String.concat "/" out)
    else match out with
         | [] => "."
         | _ => String.concat "/" out
         end.

(** [true] when a separator occurs in [s]. *)
Fixpoint has_sep (s : string) : bool :=
  match s with
  | EmptyString => false
  | String c r => Ascii.eqb c "/" || has_sep r
  end.

(** [path[:i+1]] for [i] the index of the last separator of [path]
    (the empty string when there is none). *)
Fixpoint upto_last_sep (path : string) : string :=
  match path with
  | EmptyString => EmptyString
  | String c r =>
      if Ascii.eqb c "/" || has_sep r then String c (upto_last_sep r)
      else EmptyString
  end.

(** [filepath.Dir(path)]: all but the last element of [path], cleaned. *)
Definition Dir (path : string) : string := Clean (upto_last_sep path).

(** [filepath.Join(elem...)]: the elements from the first non-empty one on,
    separated by slashes, cleaned; the empty string when all are empty. *)
Fixpoint Join (elem : list string) : string :=
  match elem with
  | [] => ""
  | e :: rest =>
      if String.eqb e "" then Join rest
      else Clean (String.concat "/" elem)
  end.

(** [filepath.IsAbs(path)]. *)
Definition IsAbs (path : string) : bool := strings.HasPrefix path "/".

End filepath.

(** ** Configuration values *)

(** A dynamically typed setting, as the key-value registry holds it
    ([interface{}] in the source): text, a number (a [time.Duration] is its
    count of nanoseconds) or a flag. *)
Inductive value :=
| VString (s : string)
| VInt (n : Z)
| VBool (b : bool).

#[global] Instance value_eq_dec : EqDecision value.
Proof. solve_decision. Defined.

(** Modelled from the spec: the declaration of [config.Config]
    (server/config) is not among the sources. Its sections are those of
    the data model (HTTP, TLS, Database, Etcd, Auth, Log) and its fields
    are the ones [SaveConfig] reads, one per registry key. *)
Module config.

Record HTTP_t := { HTTP_Addr : string; HTTP_TLS : bool }.
Record TLS_t := { TLS_Cert : string; TLS_Key : string }.
Record Db_t := {
  Db_Driver : string; Db_Host : string; Db_Port : Z; Db_User : string;
  Db_Password : string; Db_Name : string; Db_Charset : string }.
Record Etcd_t := {
  Etcd_Name : string; Etcd_Host : string; Etcd_ClientPort : Z;
  Etcd_PeerPort : Z; Etcd_DataDir : string; Etcd_Username : string;
  Etcd_Password : string; Etcd_RootPassword : string }.
Record Auth_t := {
  Auth_JWTSecret : string; Auth_JWTExpiry : Z; Auth_JWTRefreshExpiry : Z }.
Record Log_t := {
  Log_Level : string; Log_Stdout : bool; Log_Filename : string;
  Log_MaxSize : Z; Log_MaxBackups : Z; Log_MaxAge : Z }.

Record Config := {
  HTTP : HTTP_t; TLS : TLS_t; Db : Db_t; Etcd : Etcd_t; Auth : Auth_t;
  Log : Log_t }.

(** The zero value of the struct. *)
Definition zero : Config := {|
  HTTP := {| HTTP_Addr := ""; HTTP_TLS := false |};
  TLS := {| TLS_Cert := ""; TLS_Key := "" |};
  Db := {| Db_Driver := ""; Db_Host := ""; Db_Port := 0; Db_User := "";
           Db_Password := ""; Db_Name := ""; Db_Charset := "" |};
  Etcd := {| Etcd_Name := ""; Etcd_Host := ""; Etcd_ClientPort := 0;
             Etcd_PeerPort := 0; Etcd_DataDir := ""; Etcd_Username := "";
             Etcd_Password := ""; Etcd_RootPassword := "" |};
  Auth := {| Auth_JWTSecret := ""; Auth_JWTExpiry := 0;
             Auth_JWTRefreshExpiry := 0 |};
  Log := {| Log_Level := ""; Log_Stdout := false; Log_Filename := "";
            Log_MaxSize := 0; Log_MaxBackups := 0; Log_MaxAge := 0 |} |}.

(** Assignments to the four path-bearing fields. *)
Definition set_Etcd_DataDir (p : string) (c : Config) : Config :=
  let e := Etcd c in
  {| HTTP := HTTP c; TLS := TLS c; Db := Db c;
     Etcd := {| Etcd_Name := Etcd_Name e; Etcd_Host := Etcd_Host e;
                Etcd_ClientPort := Etcd_ClientPort e;
                Etcd_PeerPort := Etcd_PeerPort e; Etcd_DataDir := p;
                Etcd_Username := Etcd_Username e;
                Etcd_Password := Etcd_Password e;
                Etcd_RootPassword := Etcd_RootPassword e |};
     Auth := Auth c; Log := Log c |}.

Definition set_Log_Filename (p : string) (c : Config) : Config :=
  let l := Log c in
  {| HTTP := HTTP c; TLS := TLS c; Db := Db c; Etcd := Etcd c; Auth := Auth c;
     Log := {| Log_Level := Log_Level l; Log_Stdout := Log_Stdout l;
               Log_Filename := p; Log_MaxSize := Log_MaxSize l;
               Log_MaxBackups := Log_MaxBackups l;
               Log_MaxAge := Log_MaxAge l |} |}.

Definition set_TLS_Cert (p : string) (c : Config) : Config :=
  {| HTTP := HTTP c; TLS := {| TLS_Cert := p; TLS_Key := TLS_Key (TLS c) |};
     Db := Db c; Etcd := Etcd c; Auth := Auth c; Log := Log c |}.

Definition set_TLS_Key (p : string) (c : Config) : Config :=
  {| HTTP := HTTP c; TLS := {| TLS_Cert := TLS_Cert (TLS c); TLS_Key := p |};
     Db := Db c; Etcd := Etcd c; Auth := Auth c; Log := Log c |}.

End config.

(** Go's [error] values, by what raised them. [nil] is [None] at type
    [option error]. *)
Inductive error :=
| ErrHomeDir
| ErrMakeDir (path : string)
| ErrConfigFileAlreadyExists (path : string)
| ErrWrite (path : string)
| ErrRead (path : string)
| ErrParse (path : string)
| ErrDecode (key : string)
| ErrLogger
| ErrCert.

(** ** The file system

    A configuration file is kept by what a JSON reader makes of it: text
    that does not parse, or the document's settings by dotted key. *)
Inductive file :=
| Malformed
| Document (settings : gmap string value)
| Blob.

Record disk := {
  dirs : gset string;
  files : gmap string file;
  (** places where creating or writing is refused *)
  refused : gset string }.

Module fs.

(** Modelled from the spec: [fs.Exists] (pkg/fs is not among the sources):
    something, a file or a directory, is at [path]. *)
Definition Exists (d : disk) (path : string) : bool :=
  bool_decide (path ∈ dirs d) || bool_decide (is_Some (files d !! path)).

(** Modelled from the spec: [fs.MakeDir] (pkg/fs is not among the sources):
    the directory exists afterwards, or the call fails. *)
Definition MakeDir (d : disk) (path : string) : disk + error :=
  if bool_decide (path ∈ refused d) then inr (ErrMakeDir path)
  else inl {| dirs := {[path]} ∪ dirs d; files := files d;
              refused := refused d |}.

(** Creating or truncating the file at [path] and writing [f] to it: it
    needs the directory of [path] and is refused at the places in
    [refused]. *)
Definition WriteFile (d : disk) (path : string) (f : file) : disk + error :=
  if bool_decide (path ∈ refused d)
     || negb (bool_decide (filepath.Dir path ∈ dirs d))
  then inr (ErrWrite path)
  else inl {| dirs := dirs d; files := <[path := f]> (files d);
              refused := refused d |}.

End fs.

(** ** The key-value registry

    Modelled from the spec: the registry that binds flags, environment and
    file (the viper library) is not part of the repository. It keeps one
    tier per source and reads a key from the highest tier that has it:
    a value written with [Set], then a command-line flag that was given,
    then the environment, then the configuration file, then the built-in
    default, which is the default of the flag bound to the key. *)
Module viper.

(** A command-line flag: its current value, and whether the command line
    set it. *)
Record flag := { Value : value; Changed : bool }.

Record Viper := {
  configFile : string;
  configType : string;
  envPrefix : string;
  envKeyReplacer : option (ascii * ascii);
  automaticEnvApplied : bool;
  override : gmap string value;
  pflags : gmap string flag;
  config : gmap string value }.

Definition New : Viper := {|
  configFile := ""; configType := ""; envPrefix := "";
  envKeyReplacer := None; automaticEnvApplied := false;
  override := ∅; pflags := ∅; config := ∅ |}.

Definition SetConfigFile (f : string) (v : Viper) : Viper :=
  {| configFile := f; configType := configType v; envPrefix := envPrefix v;
     envKeyReplacer := envKeyReplacer v;
     automaticEnvApplied := automaticEnvApplied v; override := override v;
     pflags := pflags v; config := config v |}.

Definition SetConfigType (t : string) (v : Viper) : Viper :=
  {| configFile := configFile v; configType := t; envPrefix := envPrefix v;
     envKeyReplacer := envKeyReplacer v;
     automaticEnvApplied := automaticEnvApplied v; override := override v;
     pflags := pflags v; config := config v |}.

Definition SetEnvPrefix (p : string) (v : Viper) : Viper :=
  {| configFile := configFile v; configType := configType v; envPrefix := p;
     envKeyReplacer := envKeyReplacer v;
     automaticEnvApplied := automaticEnvApplied v; override := override v;
     pflags := pflags v; config := config v |}.

Definition SetEnvKeyReplacer (old new : ascii) (v : Viper) : Viper :=
  {| configFile := configFile v; configType := configType v;
     envPrefix := envPrefix v; envKeyReplacer := Some (old, new);
     automaticEnvApplied := automaticEnvApplied v; override := override v;
     pflags := pflags v; config := config v |}.

Definition AutomaticEnv (v : Viper) : Viper :=
  {| configFile := configFile v; configType := configType v;
     envPrefix := envPrefix v; envKeyReplacer := envKeyReplacer v;
     automaticEnvApplied := true; override := override v;
     pflags := pflags v; config := config v |}.

(** [viper.Set(key, value)]. *)
Definition Set_ (key : string) (x : value) (v : Viper) : Viper :=
  {| configFile := configFile v; configType := configType v;
     envPrefix := envPrefix v; envKeyReplacer := envKeyReplacer v;
     automaticEnvApplied := automaticEnvApplied v;
     override := <[key := x]> (override v);
     pflags := pflags v; config := config v |}.

(** [viper.BindPFlag(key, flag)]; [flag] is what [Lookup] found, and a
    flag that is not defined binds nothing (the error is dropped by the
    caller). *)
Definition BindPFlag (key : string) (f : option flag) (v : Viper) : Viper :=
  match f with
  | None => v
  | Some f =>
      {| configFile := configFile v; configType := configType v;
         envPrefix := envPrefix v; envKeyReplacer := envKeyReplacer v;
         automaticEnvApplied := automaticEnvApplied v;
         override := override v;
         pflags := <[key := f]> (pflags v); config := config v |}
  end.

Definition set_config (m : gmap string value) (v : Viper) : Viper :=
  {| configFile := configFile v; configType := configType v;
     envPrefix := envPrefix v; envKeyReplacer := envKeyReplacer v;
     automaticEnvApplied := automaticEnvApplied v; override := override v;
     pflags := pflags v; config := m |}.

Definition ConfigFileUsed (v : Viper) : string := configFile v.

(** The name of the environment variable of [key]: prefix and key joined
    with an underscore, in upper case, with the replacer applied. *)
Definition envName (v : Viper) (key : string) : string :=
  let n :=
    if String.eqb (envPrefix v) "" then strings.ToUpper key
    else strings.ToUpper (envPrefix v +:+ "_" +:+ key) in
  match envKeyReplacer v with
  | Some (old, new) => strings.Replace old new n
  | None => n
  end.

(** The tiers of one key. [env] holds the variables of the environment
    that are set. *)
Definition flagGiven (v : Viper) (key : string) : option value :=
  match pflags v !! key with
  | Some f => if Changed f then Some (Value f) else None
  | None => None
  end.

Definition getEnv (v : Viper) (env : gmap string string) (key : string)
  : option value :=
  if automaticEnvApplied v then VString <$> env !! envName v key else None.

Definition flagDefault (v : Viper) (key : string) : option value :=
  Value <$> pflags v !! key.

(** [viper.Get(key)]: the value of the highest tier that has the key. *)
Definition Get (v : Viper) (env : gmap string string) (key : string)
  : option value :=
  override v !! key ∪ flagGiven v key ∪ getEnv v env key
    ∪ config v !! key ∪ flagDefault v key.

(** [viper.AllSettings()]: every key some tier other than the bare
    environment knows, with the value [Get] reads for it. *)
Definition AllSettings (v : Viper) (env : gmap string string)
  : gmap string value :=
  map_imap (λ key _, Get v env key)
           (override v ∪ (Value <$> pflags v) ∪ config v).

(** [viper.GetString(key)]: the text read for the key, the empty text when
    no tier has it; a number or a flag is printed. *)
Definition GetString (v : Viper) (env : gmap string string) (key : string)
  : string :=
  match Get v env key with
  | Some (VString s) => s
  | Some (VInt n) => pretty n
  | Some (VBool b) => if b then "true" else "false"
  | None => ""
  end.

(** [viper.GetDuration(key)] for a key that holds a duration or a number;
    zero when no tier has the key. Durations written as text (such as 15m)
    are not modelled and read as zero. *)
Definition GetDuration (v : Viper) (env : gmap string string) (key : string)
  : Z :=
  match Get v env key with
  | Some (VInt n) => n
  | _ => 0
  end.

(** Decoding one field of the target struct from the settings: a missing
    key leaves the field as it was, a value of the field's kind is
    assigned, and a value of another kind is a decoding error (the
    conversions between kinds that the decoder attempts are not
    modelled). *)
Definition field_string (m : gmap string value) (key : string) (old : string)
  : string + error :=
  match m !! key with
  | None => inl old
  | Some (VString s) => inl s
  | Some _ => inr (ErrDecode key)
  end.

Definition field_int (m : gmap string value) (key : string) (old : Z)
  : Z + error :=
  match m !! key with
  | None => inl old
  | Some (VInt n) => inl n
  | Some _ => inr (ErrDecode key)
  end.

Definition field_bool (m : gmap string value) (key : string) (old : bool)
  : bool + error :=
  match m !! key with
  | None => inl old
  | Some (VBool b) => inl b
  | Some _ => inr (ErrDecode key)
  end.

End viper.

(** ** Package core: process state and effects *)

Module core.

(** A [*zap.Logger], by the log section it was built from. *)
Record Logger := { logger_config : config.Log_t }.

(** What the process does that others can observe, oldest first. *)
Inductive event :=
| EvMakeDir (path : string)
| EvWriteConfig (path : string) (done : bool)
| EvReadConfig (path : string)
| EvLogInfo (msg : string)
| EvAuthInit (secret : string) (expiry refreshExpiry : Z)
| EvDbConnect (db : config.Db_t)
| EvGenerateCert (cert key : string).

(** What the process finds around it: the environment variables that are
    set, the home directory (or the error of looking it up), the disk, and
    whether building a logger and generating a certificate work. *)
Record world := {
  environ : gmap string string;
  homeDir : string + error;
  hd : disk;
  newLoggerFails : bool;
  generateCertFails : bool }.

(** The package-level variables [ConfigFile], [Config] and [Log] ([None]
    is the nil pointer), the registry, the state of the authentication and
    database packages, and the world. *)
Record state := {
  ConfigFile : string;
  Config : option config.Config;
  Log : option Logger;
  registry : viper.Viper;
  authState : option (string * Z * Z);
  dbConn : option (config.Db_t * option Logger);
  os : world;
  trace : list event }.

Definition set_ConfigFile (x : string) (s : state) : state :=
  {| ConfigFile := x; Config := Config s; Log := Log s;
     registry := registry s; authState := authState s; dbConn := dbConn s;
     os := os s; trace := trace s |}.

Definition set_Config (x : option config.Config) (s : state) : state :=
  {| ConfigFile := ConfigFile s; Config := x; Log := Log s;
     registry := registry s; authState := authState s; dbConn := dbConn s;
     os := os s; trace := trace s |}.

Definition set_Log (x : option Logger) (s : state) : state :=
  {| ConfigFile := ConfigFile s; Config := Config s; Log := x;
     registry := registry s; authState := authState s; dbConn := dbConn s;
     os := os s; trace := trace s |}.

Definition set_registry (x : viper.Viper) (s : state) : state :=
  {| ConfigFile := ConfigFile s; Config := Config s; Log := Log s;
     registry := x; authState := authState s; dbConn := dbConn s;
     os := os s; trace := trace s |}.

Definition set_authState (x : option (string * Z * Z)) (s : state) : state :=
  {| ConfigFile := ConfigFile s; Config := Config s; Log := Log s;
     registry := registry s; authState := x; dbConn := dbConn s;
     os := os s; trace := trace s |}.

Definition set_dbConn (x : option (config.Db_t * option Logger)) (s : state)
  : state :=
  {| ConfigFile := ConfigFile s; Config := Config s; Log := Log s;
     registry := registry s; authState := authState s; dbConn := x;
     os := os s; trace := trace s |}.

Definition set_disk (d : disk) (s : state) : state :=
  {| ConfigFile := ConfigFile s; Config := Config s; Log := Log s;
     registry := registry s; authState := authState s; dbConn := dbConn s;
     os := {| environ := environ (os s); homeDir := homeDir (os s); hd := d;
              newLoggerFails := newLoggerFails (os s);
              generateCertFails := generateCertFails (os s) |};
     trace := trace s |}.

Definition emit (e : event) (s : state) : state :=
  {| ConfigFile := ConfigFile s; Config := Config s; Log := Log s;
     registry := registry s; authState := authState s; dbConn := dbConn s;
     os := os s; trace := trace s ++ [e] |}.

(** How a call ends: it returns, the process exits through [fatal], or it
    panics on a nil pointer. *)
Inductive outcome (A : Type) :=
| Ok (a : A) (s : state)
| Exit (e : error) (s : state)
| Panic (s : state).
Arguments Ok {A} a s.
Arguments Exit {A} e s.
Arguments Panic {A} s.

Definition M (A : Type) : Type := state → outcome A.

Definition ret {A} (a : A) : M A := λ s, Ok a s.

Definition bind {A B} (m : M A) (k : A → M B) : M B :=
  λ s, match m s with
       | Ok a s' => k a s'
       | Exit e s' => Exit e s'
       | Panic s' => Panic s'
       end.

Definition gets {A} (f : state → A) : M A := λ s, Ok (f s) s.
Definition modify (f : state → state) : M unit := λ s, Ok tt (f s).
Definition panic {A} : M A := λ s, Panic s.

(** [fatal(msg)]: print the message and exit with status 1. *)
Definition fatal {A} (e : error) : M A := λ s, Exit e s.

Notation "'let*' x ':=' m 'in' k" := (bind m (λ x, k))
  (at level 10, x name, m at level 100, k at level 200, only parsing).
Notation "m ';;' k" := (bind m (λ _, k))
  (at level 100, k at level 200, right associativity, only parsing).
Notation "'let+' x ':=' m 'in' k" :=
  (match m with inl x => k | inr e => inr e end)
  (at level 10, x name, m at level 100, k at level 200, only parsing).

(** *** Collaborators *)

(** [fs.GetHomeDir()]. *)
Definition fs_GetHomeDir : M (string + error) := gets (λ s, homeDir (os s)).

(** [fs.Exists(path)]. *)
Definition fs_Exists (path : string) : M bool :=
  gets (λ s, fs.Exists (hd (os s)) path).

(** [fs.MakeDir(path)]. *)
Definition fs_MakeDir (path : string) : M (option error) :=
  λ s, match fs.MakeDir (hd (os s)) path with
       | inl d => Ok None (emit (EvMakeDir path) (set_disk d s))
       | inr e => Ok (Some e) s
       end.

(** [Log.Sugar().Infof(...)]: a panic when [Log] is nil. *)
Definition Log_Infof (msg : string) : M unit :=
  λ s, match Log s with
       | None => Panic s
       | Some _ => Ok tt (emit (EvLogInfo msg) s)
       end.

(** Modelled from the spec: [logger.NewLogger] (pkg/logger is not among
    the sources) builds the process logger from the log section, or
    fails. *)
Definition logger_NewLogger (l : config.Log_t) : M (Logger + error) :=
  λ s, if newLoggerFails (os s) then Ok (inr ErrLogger) s
       else Ok (inl {| logger_config := l |}) s.

(** Modelled from the spec: [auth.Init] (server/auth is not among the
    sources) makes the secret and the two token lifetimes the state of the
    authentication package. *)
Definition auth_Init (secret : string) (expiry refreshExpiry : Z) : M unit :=
  modify (λ s, emit (EvAuthInit secret expiry refreshExpiry)
                 (set_authState (Some (secret, expiry, refreshExpiry)) s)).

(** Modelled from the spec: [db.Connect] (server/db is not among the
    sources) connects with the database section; the handle becomes state
    of the database package. *)
Definition db_Connect (db : config.Db_t) (log : option Logger) : M unit :=
  modify (λ s, emit (EvDbConnect db) (set_dbConn (Some (db, log)) s)).

(** Modelled from the spec: [tlsutil.CheckAndGenerateCert] (pkg/tlsutil is
    not among the sources) leaves an existing certificate and key alone and
    generates the pair when one of them is missing. *)
Definition tlsutil_CheckAndGenerateCert (cert key : string)
  : M (option error) :=
  λ s, let d := hd (os s) in
       if fs.Exists d cert && fs.Exists d key then Ok None s
       else if generateCertFails (os s) then Ok (Some ErrCert) s
       else match fs.WriteFile d cert Blob with
            | inr _ => Ok (Some ErrCert) s
            | inl d1 =>
                match fs.WriteFile d1 key Blob with
                | inr _ => Ok (Some ErrCert) s
                | inl d2 => Ok None (emit (EvGenerateCert cert key)
                                       (set_disk d2 s))
                end
            end.

(** *** The registry as the process uses it *)

Definition viper_do (f : viper.Viper → viper.Viper) : M unit :=
  modify (λ s, set_registry (f (registry s)) s).

Definition viper_ConfigFileUsed : M string :=
  gets (λ s, viper.ConfigFileUsed (registry s)).

(** The settings the registry writes out and decodes. *)
Definition settings (s : state) : gmap string value :=
  viper.AllSettings (registry s) (environ (os s)).

(** Writing the settings as the configuration file. *)
Definition writeConfig (path : string) : M (option error) :=
  λ s, match fs.WriteFile (hd (os s)) path (Document (settings s)) with
       | inl d => Ok None (emit (EvWriteConfig path true) (set_disk d s))
       | inr e => Ok (Some e) (emit (EvWriteConfig path false) s)
       end.

(** [viper.SafeWriteConfigAs(path)]: refuses to overwrite. *)
Definition viper_SafeWriteConfigAs (path : string) : M (option error) :=
  λ s, if bool_decide (is_Some (files (hd (os s)) !! path))
       then Ok (Some (ErrConfigFileAlreadyExists path)) s
       else writeConfig path s.

(** [viper.WriteConfigAs(path)]: overwrites. *)
Definition viper_WriteConfigAs (path : string) : M (option error) :=
  writeConfig path.

(** [viper.ReadInConfig()]: reads and parses the configuration file into
    the file tier. *)
Definition viper_ReadInConfig : M (option error) :=
  λ s, let path := viper.configFile (registry s) in
       match files (hd (os s)) !! path with
       | Some (Document m) =>
           Ok None (emit (EvReadConfig path)
                      (set_registry (viper.set_config m (registry s)) s))
       | Some Malformed => Ok (Some (ErrParse path)) s
       | Some Blob => Ok (Some (ErrParse path)) s
       | None => Ok (Some (ErrRead path)) s
       end.

(** Decoding the settings into the configuration struct, field by field
    under the key of each field. *)
Definition decode (m : gmap string value) (old : config.Config)
  : config.Config + error :=
  let h := config.HTTP old in
  let t := config.TLS old in
  let d := config.Db old in
  let e := config.Etcd old in
  let a := config.Auth old in
  let l := config.Log old in
  let+ http_addr := viper.field_string m "http.addr" (config.HTTP_Addr h) in
  let+ http_tls := viper.field_bool m "http.tls" (config.HTTP_TLS h) in
  let+ tls_cert := viper.field_string m "tls.cert" (config.TLS_Cert t) in
  let+ tls_key := viper.field_string m "tls.key" (config.TLS_Key t) in
  let+ db_driver := viper.field_string m "db.driver" (config.Db_Driver d) in
  let+ db_host := viper.field_string m "db.host" (config.Db_Host d) in
  let+ db_port := viper.field_int m "db.port" (config.Db_Port d) in
  let+ db_user := viper.field_string m "db.user" (config.Db_User d) in
  let+ db_password :=
    viper.field_string m "db.password" (config.Db_Password d) in
  let+ db_name := viper.field_string m "db.name" (config.Db_Name d) in
  let+ db_charset := viper.field_string m "db.charset" (config.Db_Charset d) in
  let+ etcd_name := viper.field_string m "etcd.name" (config.Etcd_Name e) in
  let+ etcd_host := viper.field_string m "etcd.host" (config.Etcd_Host e) in
  let+ etcd_clientport :=
    viper.field_int m "etcd.clientport" (config.Etcd_ClientPort e) in
  let+ etcd_peerport :=
    viper.field_int m "etcd.peerport" (config.Etcd_PeerPort e) in
  let+ etcd_datadir :=
    viper.field_string m "etcd.datadir" (config.Etcd_DataDir e) in
  let+ etcd_username :=
    viper.field_string m "etcd.username" (config.Etcd_Username e) in
  let+ etcd_password :=
    viper.field_string m "etcd.password" (config.Etcd_Password e) in
  let+ etcd_rootpassword :=
    viper.field_string m "etcd.rootpassword" (config.Etcd_RootPassword e) in
  let+ auth_jwtsecret :=
    viper.field_string m "auth.jwtsecret" (config.Auth_JWTSecret a) in
  let+ auth_jwtexpiry :=
    viper.field_int m "auth.jwtexpiry" (config.Auth_JWTExpiry a) in
  let+ auth_jwtrefreshexpiry :=
    viper.field_int m "auth.jwtrefreshexpiry"
      (config.Auth_JWTRefreshExpiry a) in
  let+ log_level := viper.field_string m "log.level" (config.Log_Level l) in
  let+ log_stdout := viper.field_bool m "log.stdout" (config.Log_Stdout l) in
  let+ log_filename :=
    viper.field_string m "log.filename" (config.Log_Filename l) in
  let+ log_maxsize := viper.field_int m "log.maxsize" (config.Log_MaxSize l) in
  let+ log_maxbackups :=
    viper.field_int m "log.maxbackups" (config.Log_MaxBackups l) in
  let+ log_maxage := viper.field_int m "log.maxage" (config.Log_MaxAge l) in
  inl {|
    config.HTTP :=
      {| config.HTTP_Addr := http_addr; config.HTTP_TLS := http_tls |};
    config.TLS := {| config.TLS_Cert := tls_cert; config.TLS_Key := tls_key |};
    config.Db :=
      {| config.Db_Driver := db_driver; config.Db_Host := db_host;
         config.Db_Port := db_port; config.Db_User := db_user;
         config.Db_Password := db_password; config.Db_Name := db_name;
         config.Db_Charset := db_charset |};
    config.Etcd :=
      {| config.Etcd_Name := etcd_name; config.Etcd_Host := etcd_host;
         config.Etcd_ClientPort := etcd_clientport;
         config.Etcd_PeerPort := etcd_peerport;
         config.Etcd_DataDir := etcd_datadir;
         config.Etcd_Username := etcd_username;
         config.Etcd_Password := etcd_password;
         config.Etcd_RootPassword := etcd_rootpassword |};
    config.Auth :=
      {| config.Auth_JWTSecret := auth_jwtsecret;
         config.Auth_JWTExpiry := auth_jwtexpiry;
         config.Auth_JWTRefreshExpiry := auth_jwtrefreshexpiry |};
    config.Log :=
      {| config.Log_Level := log_level; config.Log_Stdout := log_stdout;
         config.Log_Filename := log_filename;
         config.Log_MaxSize := log_maxsize;
         config.Log_MaxBackups := log_maxbackups;
         config.Log_MaxAge := log_maxage |} |}.

(** [viper.Unmarshal(&Config)]: decodes into the struct [Config] points
    to, a fresh one when [Config] is nil. *)
Definition viper_Unmarshal_Config : M (option error) :=
  λ s, match decode (settings s) (default config.zero (Config s)) with
       | inl c => Ok None (set_Config (Some c) s)
       | inr e => Ok (Some e) s
       end.

(** Reading a field of [Config]: a panic when the pointer is nil. *)
Definition Config_deref : M config.Config :=
  λ s, match Config s with
       | Some c => Ok c s
       | None => Panic s
       end.

(** Assigning to a field of [Config]. *)
Definition Config_assign (f : config.Config → config.Config) : M unit :=
  λ s, match Config s with
       | Some c => Ok tt (set_Config (Some (f c)) s)
       | None => Panic s
       end.

(** *** The functions of the package *)

(** The statement that normalises a path-bearing field, which the source
    repeats for each of them: a path that starts with a slash stays, any
    other is joined under the directory of the configuration file. *)
Definition Resolve (base_dir path : string) : string :=
  if negb (strings.HasPrefix path "/")
  then filepath.Join [base_dir; path]
  else path.

(** The keys [InitDefaults] binds, each with the name of its flag. *)
Definition flagBindings : list (string * string) :=
  [ ("http.addr", "http-addr"); ("http.tls", "http-tls");
    ("tls.cert", "tls-cert"); ("tls.key", "tls-key");
    ("db.driver", "db-driver"); ("db.host", "db-host");
    ("db.port", "db-port"); ("db.user", "db-user");
    ("db.password", "db-password"); ("db.name", "db-name");
    ("db.charset", "db-charset"); ("etcd.name", "etcd-name");
    ("etcd.host", "etcd-host"); ("etcd.clientport", "etcd-clientport");
    ("etcd.peerport", "etcd-peerport"); ("etcd.datadir", "etcd-datadir");
    ("etcd.username", "etcd-username"); ("etcd.password", "etcd-password");
    ("etcd.rootpassword", "etcd-rootpassword");
    ("auth.jwtsecret", "auth-jwtsecret");
    ("auth.jwtexpiry", "auth-jwtexpiry");
    ("auth.jwtrefreshexpiry", "auth-jwtrefreshexpiry");
    ("log.level", "log-level"); ("log.stdout", "log-stdout");
    ("log.filename", "log-filename"); ("log.maxsize", "log-max-size");
    ("log.maxbackups", "log-max-backups"); ("log.maxage", "log-max-age") ].

(** [InitDefaults(cmd, cfgFile)]; [cmd] is the command's persistent flag
    set, by flag name. *)
Definition InitDefaults (cmd : gmap string viper.flag) (cfgFile : string)
  : M unit :=
  modify (set_ConfigFile cfgFile) ;;
  viper_do (λ v, fold_left
                   (λ v kf, viper.BindPFlag kf.1 (cmd !! kf.2) v)
                   flagBindings v).

(** [fatal(err)] when [err] is not nil. *)
Definition check (r : option error) : M unit :=
  match r with
  | Some e => fatal e
  | None => ret tt
  end.

(** [InitConfig()]. *)
Definition InitConfig : M unit :=
  let* cf := gets ConfigFile in
  (if String.eqb cf "" then
     let* r := fs_GetHomeDir in
     match r with
     | inr e => fatal e
     | inl home =>
         modify (set_ConfigFile
                   (filepath.Join [home; "abstruse"; "abstruse-server.json"]))
     end
   else ret tt) ;;
  let* cf := gets ConfigFile in
  viper_do (viper.SetConfigFile cf) ;;
  viper_do (viper.SetConfigType "json") ;;
  viper_do (viper.SetEnvPrefix "abstruse") ;;
  viper_do (viper.SetEnvKeyReplacer "." "_") ;;
  viper_do viper.AutomaticEnv ;;
  let* used := viper_ConfigFileUsed in
  let* present := fs_Exists used in
  (if negb present then
     let* dir_present := fs_Exists (filepath.Dir cf) in
     (if negb dir_present then
        let* r := fs_MakeDir (filepath.Dir cf) in
        check r
      else ret tt) ;;
     let* r := viper_SafeWriteConfigAs used in
     check r ;;
     Log_Infof ("config file save to " +:+ used)
   else ret tt) ;;
  let* r := viper_ReadInConfig in
  check r ;;
  let* r := viper_Unmarshal_Config in
  check r ;;
  let* c := Config_deref in
  Config_assign
    (config.set_Etcd_DataDir
       (Resolve (filepath.Dir used) (config.Etcd_DataDir (config.Etcd c)))) ;;
  let* c := Config_deref in
  Config_assign
    (config.set_Log_Filename
       (Resolve (filepath.Dir used) (config.Log_Filename (config.Log c)))) ;;
  let* c := Config_deref in
  Config_assign
    (config.set_TLS_Cert
       (Resolve (filepath.Dir used) (config.TLS_Cert (config.TLS c)))) ;;
  let* c := Config_deref in
  Config_assign
    (config.set_TLS_Key
       (Resolve (filepath.Dir used) (config.TLS_Key (config.TLS c)))) ;;
  let* c := Config_deref in
  let* r := logger_NewLogger (config.Log c) in
  match r with
  | inr e => modify (set_Log None) ;; fatal e
  | inl l => modify (set_Log (Some l))
  end.

(** [InitTLS()], from the point where the two paths are settled. *)
Definition InitTLS_with (cert key : string) : M unit :=
  let* cert_present := fs_Exists cert in
  let* key_present := fs_Exists key in
  (if negb cert_present || negb key_present then
     Log_Infof ("generating SSL cert " +:+ cert +:+ " and key " +:+ key)
   else ret tt) ;;
  let* r := tlsutil_CheckAndGenerateCert cert key in
  check r.

(** [InitTLS()]. *)
Definition InitTLS : M unit :=
  let* c := Config_deref in
  let* used := viper_ConfigFileUsed in
  let cert := Resolve (filepath.Dir used) (config.TLS_Cert (config.TLS c)) in
  let key := Resolve (filepath.Dir used) (config.TLS_Key (config.TLS c)) in
  InitTLS_with cert key.

(** [InitDB()]. *)
Definition InitDB : M unit :=
  let* c := Config_deref in
  let* log := gets Log in
  db_Connect (config.Db c) log.

(** [InitAuthentication()]. *)
Definition InitAuthentication : M unit :=
  let* secret :=
    gets (λ s, viper.GetString (registry s) (environ (os s))
                 "auth.jwtsecret") in
  let* expiry :=
    gets (λ s, viper.GetDuration (registry s) (environ (os s))
                 "auth.jwtexpiry") in
  let* refreshExpiry :=
    gets (λ s, viper.GetDuration (registry s) (environ (os s))
                 "auth.jwtrefreshexpiry") in
  auth_Init secret expiry refreshExpiry.

(** [SaveConfig(cfg)]. *)
Definition SaveConfig (cfg : option config.Config) : M (option error) :=
  modify (set_Config cfg) ;;
  let* c := Config_deref in
  viper_do (viper.Set_ "http.addr"
              (VString (config.HTTP_Addr (config.HTTP c)))) ;;
  viper_do (viper.Set_ "http.tls"
              (VBool (config.HTTP_TLS (config.HTTP c)))) ;;
  viper_do (viper.Set_ "tls.cert"
              (VString (config.TLS_Cert (config.TLS c)))) ;;
  viper_do (viper.Set_ "tls.key" (VString (config.TLS_Key (config.TLS c)))) ;;
  viper_do (viper.Set_ "db.driver"
              (VString (config.Db_Driver (config.Db c)))) ;;
  viper_do (viper.Set_ "db.host" (VString (config.Db_Host (config.Db c)))) ;;
  viper_do (viper.Set_ "db.port" (VInt (config.Db_Port (config.Db c)))) ;;
  viper_do (viper.Set_ "db.user" (VString (config.Db_User (config.Db c)))) ;;
  viper_do (viper.Set_ "db.password"
              (VString (config.Db_Password (config.Db c)))) ;;
  viper_do (viper.Set_ "db.name" (VString (config.Db_Name (config.Db c)))) ;;
  viper_do (viper.Set_ "db.charset"
              (VString (config.Db_Charset (config.Db c)))) ;;
  viper_do (viper.Set_ "etcd.name"
              (VString (config.Etcd_Name (config.Etcd c)))) ;;
  viper_do (viper.Set_ "etcd.host"
              (VString (config.Etcd_Host (config.Etcd c)))) ;;
  viper_do (viper.Set_ "etcd.clientport"
              (VInt (config.Etcd_ClientPort (config.Etcd c)))) ;;
  viper_do (viper.Set_ "etcd.peerport"
              (VInt (config.Etcd_PeerPort (config.Etcd c)))) ;;
  viper_do (viper.Set_ "etcd.datadir"
              (VString (config.Etcd_DataDir (config.Etcd c)))) ;;
  viper_do (viper.Set_ "etcd.username"
              (VString (config.Etcd_Username (config.Etcd c)))) ;;
  viper_do (viper.Set_ "etcd.password"
              (VString (config.Etcd_Password (config.Etcd c)))) ;;
  viper_do (viper.Set_ "etcd.rootpassword"
              (VString (config.Etcd_RootPassword (config.Etcd c)))) ;;
  viper_do (viper.Set_ "auth.jwtsecret"
              (VString (config.Auth_JWTSecret (config.Auth c)))) ;;
  viper_do (viper.Set_ "auth.jwtexpiry"
              (VInt (config.Auth_JWTExpiry (config.Auth c)))) ;;
  viper_do (viper.Set_ "auth.jwtrefreshexpiry"
              (VInt (config.Auth_JWTRefreshExpiry (config.Auth c)))) ;;
  viper_do (viper.Set_ "log.level"
              (VString (config.Log_Level (config.Log c)))) ;;
  viper_do (viper.Set_ "log.stdout"
              (VBool (config.Log_Stdout (config.Log c)))) ;;
  viper_do (viper.Set_ "log.filename"
              (VString (config.Log_Filename (config.Log c)))) ;;
  viper_do (viper.Set_ "log.maxsize"
              (VInt (config.Log_MaxSize (config.Log c)))) ;;
  viper_do (viper.Set_ "log.maxbackups"
              (VInt (config.Log_MaxBackups (config.Log c)))) ;;
  viper_do (viper.Set_ "log.maxage"
              (VInt (config.Log_MaxAge (config.Log c)))) ;;
  InitAuthentication ;;
  InitDB ;;
  let* used := viper_ConfigFileUsed in
  Log_Infof ("saving config file to " +:+ used) ;;
  viper_WriteConfigAs used.

(** The process as it starts: nothing assigned, the registry fresh. *)
Definition boot (w : world) : state :=
  {| ConfigFile := ""; Config := None; Log := None; registry := viper.New;
     authState := None; dbConn := None; os := w; trace := [] |}.

End core.

(** ** Package app: the master application's configuration file *)

Module app.

(** A JSON value; a number is kept as its literal. *)
Inductive json :=
| JNull
| JBool (b : bool)
| JNumber (literal : string)
| JString (s : string)
| JArray (items : list json)
| JObject (members : list (string * json)).

(** What [encoding/json] reports. *)
Inductive json_error :=
| SyntaxError
| UnmarshalTypeError (field : string).

(** What [ReadAndParseConfig] reports: the two messages it formats. *)
Inductive config_error :=
| ErrorReading
| ErrorParsing (cause : json_error).

(** The bytes of a file, by what the JSON scanner makes of them: not a
    JSON text, or the value they denote. *)
Inductive content :=
| NotJSON
| JSON (j : json).

(** [strings.ToLower] on ASCII text, for the case-insensitive match of
    object keys against field names. *)
Definition lower_ascii (c : ascii) : ascii :=
  let n := nat_of_ascii c in
  if (65 <=? n)%nat && (n <=? 90)%nat then ascii_of_nat (n + 32) else c.

Fixpoint ToLower (s : string) : string :=
  match s with
  | EmptyString => EmptyString
  | String c r => String (lower_ascii c) (ToLower r)
  end.

Definition key_is (key name : string) : bool :=
  String.eqb (ToLower key) name.

(** The earliest error is the one reported. *)
Definition first_error (e1 e2 : option json_error) : option json_error :=
  match e1 with
  | Some e => Some e
  | None => e2
  end.

Section Config.

(** The declarations of [etcdserver.Config] and [rpc.Config] are not among
    the sources: the two types, their zero values and the way a JSON value
    decodes into each of them are taken as given. *)
Variables EtcdConfig GRPCConfig : Type.
Variable etcd_zero : EtcdConfig.
Variable grpc_zero : GRPCConfig.
Variable decode_etcd : json → EtcdConfig → EtcdConfig * option json_error.
Variable decode_grpc : json → GRPCConfig → GRPCConfig * option json_error.

(** [Config] defines configuration for master application. *)
Record Config := {
  Cert : string;
  Key : string;
  Etcd : EtcdConfig;
  GRPC : GRPCConfig;
  LogLevel : string }.

(** [var config Config]: the zero value. *)
Definition zero : Config :=
  {| Cert := ""; Key := ""; Etcd := etcd_zero; GRPC := grpc_zero;
     LogLevel := "" |}.

(** Decoding a JSON value into a string field: a string is stored, null
    leaves the field alone, and anything else is a type error that skips
    the field. *)
Definition decode_string (field : string) (j : json) (old : string)
  : string * option json_error :=
  match j with
  | JString s => (s, None)
  | JNull => (old, None)
  | _ => (old, Some (UnmarshalTypeError field))
  end.

(** One member of the object: it is decoded into the field its key names
    and is skipped when no field has that name. Decoding goes on after a
    type error. *)
Definition decode_member (acc : Config * option json_error)
    (m : string * json) : Config * option json_error :=
  let (c, err) := acc in
  let (key, j) := m in
  if key_is key "cert" then
    let (x, e) := decode_string "cert" j (Cert c) in
    ({| Cert := x; Key := Key c; Etcd := Etcd c; GRPC := GRPC c;
        LogLevel := LogLevel c |}, first_error err e)
  else if key_is key "key" then
    let (x, e) := decode_string "key" j (Key c) in
    ({| Cert := Cert c; Key := x; Etcd := Etcd c; GRPC := GRPC c;
        LogLevel := LogLevel c |}, first_error err e)
  else if key_is key "etcd" then
    let (x, e) := decode_etcd j (Etcd c) in
    ({| Cert := Cert c; Key := Key c; Etcd := x; GRPC := GRPC c;
        LogLevel := LogLevel c |}, first_error err e)
  else if key_is key "grpc" then
    let (x, e) := decode_grpc j (GRPC c) in
    ({| Cert := Cert c; Key := Key c; Etcd := Etcd c; GRPC := x;
        LogLevel := LogLevel c |}, first_error err e)
  else if key_is key "log_level" then
    let (x, e) := decode_string "log_level" j (LogLevel c) in
    ({| Cert := Cert c; Key := Key c; Etcd := Etcd c; GRPC := GRPC c;
        LogLevel := x |}, first_error err e)
  else (c, err).

(** [json.Unmarshal(file, &config)]: nothing is stored when the bytes are
    not a JSON text; an object is decoded member by member; null stores
    nothing; any other value is a type error. *)
Definition Unmarshal (file : content) (config : Config)
  : Config * option json_error :=
  match file with
  | NotJSON => (config, Some SyntaxError)
  | JSON JNull => (config, None)
  | JSON (JObject members) => fold_left decode_member members (config, None)
  | JSON _ => (config, Some (UnmarshalTypeError "Config"))
  end.

(** [ReadAndParseConfig(configPath)]; [files] are the files that can be
    read, and reading any other path fails. *)
Definition ReadAndParseConfig (files : gmap string content)
    (configPath : string) : Config * option config_error :=
  let config := zero in
  match files !! configPath with
  | None => (config, Some ErrorReading)
  | Some file =>
      let (config, err) := Unmarshal file config in
      match err with
      | Some e => (config, Some (ErrorParsing e))
      | None => (config, None)
      end
  end.

End Config.

End app.

(** * Vocabulary of the properties *)

Import core.

(** The configuration file [InitConfig] settles on. *)
Definition located (s : state) : string + error :=
  if String.eqb (ConfigFile s) "" then
    match homeDir (os s) with
    | inl home =>
        inl (filepath.Join [home; "abstruse"; "abstruse-server.json"])
    | inr e => inr e
    end
  else inl (ConfigFile s).

(** The four assignments with which [InitConfig] normalises the paths of
    a decoded configuration, [d] being the directory of the configuration
    file. *)
Definition normalize (d : string) (c : config.Config) : config.Config :=
  let c :=
    config.set_Etcd_DataDir
      (Resolve d (config.Etcd_DataDir (config.Etcd c))) c in
  let c :=
    config.set_Log_Filename
      (Resolve d (config.Log_Filename (config.Log c))) c in
  let c :=
    config.set_TLS_Cert (Resolve d (config.TLS_Cert (config.TLS c))) c in
  config.set_TLS_Key (Resolve d (config.TLS_Key (config.TLS c))) c.

(** The registry once [InitConfig] has configured it. *)
Definition configured (cf : string) (v : viper.Viper) : viper.Viper :=
  viper.AutomaticEnv
    (viper.SetEnvKeyReplacer "." "_"
       (viper.SetEnvPrefix "abstruse"
          (viper.SetConfigType "json" (viper.SetConfigFile cf v)))).

(** What each way [InitConfig] can end tells about the states before and
    after, [cf] being the configuration file it settled on. *)
Definition InitConfig_post (cf : string) (s : state) (r : outcome unit)
  : Prop :=
  match r with
  | Ok _ s' =>
      ∃ m c0,
        ConfigFile s' = cf ∧
        files (hd (os s')) !! cf = Some (Document m) ∧
        registry s' = viper.set_config m (configured cf (registry s)) ∧
        environ (os s') = environ (os s) ∧
        decode (viper.AllSettings (registry s') (environ (os s')))
               (default config.zero (Config s)) = inl c0 ∧
        Config s' = Some (normalize (filepath.Dir cf) c0) ∧
        Log s' =
          Some {| logger_config :=
                    config.Log (normalize (filepath.Dir cf) c0) |} ∧
        (fs.Exists (hd (os s)) cf = false → is_Some (Log s)) ∧
        (fs.Exists (hd (os s)) cf = true → hd (os s') = hd (os s))
  | Panic s' =>
      Log s = None ∧ Log s' = None ∧ Config s' = Config s ∧
      fs.Exists (hd (os s)) cf = false ∧
      files (hd (os s')) !! cf =
        Some (Document (viper.AllSettings (configured cf (registry s))
                          (environ (os s))))
  | Exit e s' =>
      (Log s' = Log s ∨ e = ErrLogger ∧ Log s' = None) ∧
      (fs.Exists (hd (os s)) cf = false → Log s = None →
       e = ErrMakeDir (filepath.Dir cf) ∨ e = ErrWrite cf)
  end.

(** The settings [SaveConfig] writes into the registry, in its order. *)
Definition entries (c : config.Config) : list (string * value) :=
  [ ("http.addr", VString (config.HTTP_Addr (config.HTTP c)));
    ("http.tls", VBool (config.HTTP_TLS (config.HTTP c)));
    ("tls.cert", VString (config.TLS_Cert (config.TLS c)));
    ("tls.key", VString (config.TLS_Key (config.TLS c)));
    ("db.driver", VString (config.Db_Driver (config.Db c)));
    ("db.host", VString (config.Db_Host (config.Db c)));
    ("db.port", VInt (config.Db_Port (config.Db c)));
    ("db.user", VString (config.Db_User (config.Db c)));
    ("db.password", VString (config.Db_Password (config.Db c)));
    ("db.name", VString (config.Db_Name (config.Db c)));
    ("db.charset", VString (config.Db_Charset (config.Db c)));
    ("etcd.name", VString (config.Etcd_Name (config.Etcd c)));
    ("etcd.host", VString (config.Etcd_Host (config.Etcd c)));
    ("etcd.clientport", VInt (config.Etcd_ClientPort (config.Etcd c)));
    ("etcd.peerport", VInt (config.Etcd_PeerPort (config.Etcd c)));
    ("etcd.datadir", VString (config.Etcd_DataDir (config.Etcd c)));
    ("etcd.username", VString (config.Etcd_Username (config.Etcd c)));
    ("etcd.password", VString (config.Etcd_Password (config.Etcd c)));
    ("etcd.rootpassword", VString (config.Etcd_RootPassword (config.Etcd c)));
    ("auth.jwtsecret", VString (config.Auth_JWTSecret (config.Auth c)));
    ("auth.jwtexpiry", VInt (config.Auth_JWTExpiry (config.Auth c)));
    ("auth.jwtrefreshexpiry",
     VInt (config.Auth_JWTRefreshExpiry (config.Auth c)));
    ("log.level", VString (config.Log_Level (config.Log c)));
    ("log.stdout", VBool (config.Log_Stdout (config.Log c)));
    ("log.filename", VString (config.Log_Filename (config.Log c)));
    ("log.maxsize", VInt (config.Log_MaxSize (config.Log c)));
    ("log.maxbackups", VInt (config.Log_MaxBackups (config.Log c)));
    ("log.maxage", VInt (config.Log_MaxAge (config.Log c))) ].

(** The registry after [SaveConfig] has written the settings of [c]. *)
Definition saved (c : config.Config) (v : viper.Viper) : viper.Viper :=
  fold_left (λ v kx, viper.Set_ kx.1 kx.2 v) (entries c) v.

(** The state [SaveConfig] has reached when it turns to the file: the new
    configuration is current, its settings are in the registry, and the
    authentication and database packages are initialised again. *)
Definition reinitialized (c : config.Config) (s : state) : state :=
  let v := saved c (registry s) in
  let env := environ (os s) in
  let secret := viper.GetString v env "auth.jwtsecret" in
  let expiry := viper.GetDuration v env "auth.jwtexpiry" in
  let refreshExpiry := viper.GetDuration v env "auth.jwtrefreshexpiry" in
  {| ConfigFile := ConfigFile s; Config := Some c; Log := Log s;
     registry := v;
     authState := Some (secret, expiry, refreshExpiry);
     dbConn := Some (config.Db c, Log s);
     os := os s;
     trace := (trace s ++ [EvAuthInit secret expiry refreshExpiry])
                ++ [EvDbConnect (config.Db c)] |}.

(** What [InitConfig] leaves in a path-bearing field that was decoded as
    [p]: [p] itself when it is absolute, else [p] joined under [d]. *)
Definition normalized (d p q : string) : Prop :=
  q = (if filepath.IsAbs p then p else filepath.Join [d; p]).

(** The registry after [InitDefaults] has bound the flags of [cmd]. *)
Definition bindAll (cmd : gmap string viper.flag)
    (l : list (string * string)) (v : viper.Viper) : viper.Viper :=
  fold_left (λ v kf, viper.BindPFlag kf.1 (cmd !! kf.2) v) l v.


(** The environment variable that overrides the key [k]. *)
Definition envVar (k : string) : string :=
  strings.Replace "." "_" (strings.ToUpper ("abstruse_" +:+ k)).

(** What [decode] computes, field by field. *)
Definition decoded (m : gmap string value) (old c : config.Config) : Prop :=
  viper.field_string m "http.addr" (config.HTTP_Addr (config.HTTP old))
    = inl (config.HTTP_Addr (config.HTTP c)) ∧
  viper.field_bool m "http.tls" (config.HTTP_TLS (config.HTTP old))
    = inl (config.HTTP_TLS (config.HTTP c)) ∧
  viper.field_string m "tls.cert" (config.TLS_Cert (config.TLS old))
    = inl (config.TLS_Cert (config.TLS c)) ∧
  viper.field_string m "tls.key" (config.TLS_Key (config.TLS old))
    = inl (config.TLS_Key (config.TLS c)) ∧
  viper.field_string m "db.driver" (config.Db_Driver (config.Db old))
    = inl (config.Db_Driver (config.Db c)) ∧
  viper.field_string m "db.host" (config.Db_Host (config.Db old))
    = inl (config.Db_Host (config.Db c)) ∧
  viper.field_int m "db.port" (config.Db_Port (config.Db old))
    = inl (config.Db_Port (config.Db c)) ∧
  viper.field_string m "db.user" (config.Db_User (config.Db old))
    = inl (config.Db_User (config.Db c)) ∧
  viper.field_string m "db.password" (config.Db_Password (config.Db old))
    = inl (config.Db_Password (config.Db c)) ∧
  viper.field_string m "db.name" (config.Db_Name (config.Db old))
    = inl (config.Db_Name (config.Db c)) ∧
  viper.field_string m "db.charset" (config.Db_Charset (config.Db old))
    = inl (config.Db_Charset (config.Db c)) ∧
  viper.field_string m "etcd.name" (config.Etcd_Name (config.Etcd old))
    = inl (config.Etcd_Name (config.Etcd c)) ∧
  viper.field_string m "etcd.host" (config.Etcd_Host (config.Etcd old))
    = inl (config.Etcd_Host (config.Etcd c)) ∧
  viper.field_int m "etcd.clientport"
      (config.Etcd_ClientPort (config.Etcd old))
    = inl (config.Etcd_ClientPort (config.Etcd c)) ∧
  viper.field_int m "etcd.peerport" (config.Etcd_PeerPort (config.Etcd old))
    = inl (config.Etcd_PeerPort (config.Etcd c)) ∧
  viper.field_string m "etcd.datadir" (config.Etcd_DataDir (config.Etcd old))
    = inl (config.Etcd_DataDir (config.Etcd c)) ∧
  viper.field_string m "etcd.username"
      (config.Etcd_Username (config.Etcd old))
    = inl (config.Etcd_Username (config.Etcd c)) ∧
  viper.field_string m "etcd.password"
      (config.Etcd_Password (config.Etcd old))
    = inl (config.Etcd_Password (config.Etcd c)) ∧
  viper.field_string m "etcd.rootpassword"
      (config.Etcd_RootPassword (config.Etcd old))
    = inl (config.Etcd_RootPassword (config.Etcd c)) ∧
  viper.field_string m "auth.jwtsecret"
      (config.Auth_JWTSecret (config.Auth old))
    = inl (config.Auth_JWTSecret (config.Auth c)) ∧
  viper.field_int m "auth.jwtexpiry" (config.Auth_JWTExpiry (config.Auth old))
    = inl (config.Auth_JWTExpiry (config.Auth c)) ∧
  viper.field_int m "auth.jwtrefreshexpiry"
      (config.Auth_JWTRefreshExpiry (config.Auth old))
    = inl (config.Auth_JWTRefreshExpiry (config.Auth c)) ∧
  viper.field_string m "log.level" (config.Log_Level (config.Log old))
    = inl (config.Log_Level (config.Log c)) ∧
  viper.field_bool m "log.stdout" (config.Log_Stdout (config.Log old))
    = inl (config.Log_Stdout (config.Log c)) ∧
  viper.field_string m "log.filename" (config.Log_Filename (config.Log old))
    = inl (config.Log_Filename (config.Log c)) ∧
  viper.field_int m "log.maxsize" (config.Log_MaxSize (config.Log old))
    = inl (config.Log_MaxSize (config.Log c)) ∧
  viper.field_int m "log.maxbackups" (config.Log_MaxBackups (config.Log old))
    = inl (config.Log_MaxBackups (config.Log c)) ∧
  viper.field_int m "log.maxage" (config.Log_MaxAge (config.Log old))
    = inl (config.Log_MaxAge (config.Log c)).

(** The state in which [InitConfig] turns to the configuration file [cf]:
    the file is named and the registry is pointed at it. *)
Definition pointed (cf : string) (s : state) : state :=
  set_registry (configured cf (registry s)) (set_ConfigFile cf s).

(** How [InitConfig] ends once the document [m] is read from [cf], in the
    state [s1] in which it read it; [old] is the configuration [Config]
    pointed to when [InitConfig] began. *)
Definition loaded (cf : string) (m : gmap string value)
    (old : option config.Config) (s1 : state) : outcome unit :=
  let s2 :=
    emit (EvReadConfig cf)
      (set_registry (viper.set_config m (registry s1)) s1) in
  match decode (settings s2) (default config.zero old) with
  | inl c0 =>
      let c := normalize (filepath.Dir cf) c0 in
      if newLoggerFails (os s1)
      then Exit ErrLogger (set_Log None (set_Config (Some c) s2))
      else Ok tt (set_Log (Some {| logger_config := config.Log c |})
                    (set_Config (Some c) s2))
  | inr e => Exit e s2
  end.

(** The first thing [InitConfig] does when the configuration file is
    missing: it makes the directory [dir] unless something is there. *)
Definition ensured (dir : string) (s1 : state) : state + error :=
  if fs.Exists (hd (os s1)) dir then inl s1
  else match fs.MakeDir (hd (os s1)) dir with
       | inl d => inl (emit (EvMakeDir dir) (set_disk d s1))
       | inr e => inr e
       end.

(** A path that was decoded as [x], decoded again over its normal form
    [y]: the setting when there is one, else what the field holds. *)
Definition redecoded (m : gmap string value) (k x y : string) : string :=
  match m !! k with
  | Some _ => x
  | None => y
  end.

(** An element [Clean] keeps as it is: not empty, not [.], not [..], with
    no separator in it. *)
Definition plain (e : string) : Prop :=
  String.eqb e "" = false ∧ String.eqb e "." = false ∧
  String.eqb e ".." = false ∧ filepath.has_sep e = false.

(** The elements [Clean] has kept, last first: plain ones, on top of the
    [..] that lead a relative path (a rooted path keeps none). *)
Definition kept (rooted : bool) (out : list string) : Prop :=
  ∃ nn dd, out = (nn ++ dd)%list ∧ Forall plain nn ∧
           Forall (λ e, e = "..") dd ∧ (rooted = true → dd = []).

(** The key [k] has no setting, or the empty text. *)
Definition unset (m : gmap string value) (k : string) : Prop :=
  m !! k = None ∨ m !! k = Some (VString "").

(** The state in which [SaveConfig] writes the file. *)
Definition announced (c : config.Config) (s : state) : state :=
  emit (EvLogInfo ("saving config file to "
                   +:+ viper.configFile (registry s)))
    (reinitialized c s).

(** The certificate and key paths [InitTLS] works with. *)
Definition tls_paths (c : config.Config) (s : state) : string * string :=
  let dir := filepath.Dir (viper.ConfigFileUsed (registry s)) in
  (Resolve dir (config.TLS_Cert (config.TLS c)),
   Resolve dir (config.TLS_Key (config.TLS c))).


(** * Example installations *)

(** The state a call ends in, however it ends. *)
Definition state_of {A} (r : outcome A) : state :=
  match r with
  | Ok _ s => s
  | Exit _ s => s
  | Panic s => s
  end.

(** Process start: [InitDefaults] then [InitConfig]. *)
Definition startup (cmd : gmap string viper.flag) (cfgFile : string)
    (w : world) : outcome unit :=
  bind (InitDefaults cmd cfgFile) (λ _, InitConfig) (boot w).

(** An installation with its configuration file in place. *)
Definition server_json : string := "/etc/abstruse/abstruse-server.json".

Definition server_doc : gmap string value :=
  list_to_map
    [ ("http.addr", VString "0.0.0.0:80"); ("db.host", VString "localhost");
      ("db.port", VInt 3306); ("tls.cert", VString "certs/cert.pem");
      ("tls.key", VString "certs/key.pem");
      ("etcd.datadir", VString "data"); ("log.filename", VString "server.log");
      ("auth.jwtsecret", VString "old-secret");
      ("auth.jwtexpiry", VInt 3600) ].

Definition installed_disk : disk :=
  {| dirs := {[ "/"; "/etc"; "/etc/abstruse" ]};
     files := {[ server_json := Document server_doc ]};
     refused := ∅ |}.

Definition installed : world :=
  {| environ := ∅; homeDir := inl "/root"; hd := installed_disk;
     newLoggerFails := false; generateCertFails := false |}.

(** The same installation with the configuration file write-protected. *)
Definition readonly : world :=
  {| environ := ∅; homeDir := inl "/root";
     hd := {| dirs := dirs installed_disk; files := files installed_disk;
              refused := {[ server_json ]} |};
     newLoggerFails := false; generateCertFails := false |}.

(** A command that declares no flag. *)
Definition no_flags : gmap string viper.flag := ∅.

(** The configuration an administrator submits. *)
Definition new_config : config.Config :=
  {| config.HTTP :=
       {| config.HTTP_Addr := "0.0.0.0:443"; config.HTTP_TLS := true |};
     config.TLS := {| config.TLS_Cert := "/etc/abstruse/certs/cert.pem";
                      config.TLS_Key := "/etc/abstruse/certs/key.pem" |};
     config.Db := config.Db config.zero;
     config.Etcd := config.Etcd config.zero;
     config.Auth := {| config.Auth_JWTSecret := "new-secret";
                       config.Auth_JWTExpiry := 900;
                       config.Auth_JWTRefreshExpiry := 86400 |};
     config.Log := config.Log config.zero |}.

(** The server once it has started on each of the two. *)
Definition running : state :=
  state_of (startup no_flags server_json installed).

Definition running_readonly : state :=
  state_of (startup no_flags server_json readonly).

(** An installation that names its configuration file by a relative
    path. *)
Definition relative_json : string := "conf/abstruse-server.json".

Definition relative_install : world :=
  {| environ := ∅; homeDir := inl "/root";
     hd := {| dirs := {[ "conf" ]};
              files := {[ relative_json := Document server_doc ]};
              refused := ∅ |};
     newLoggerFails := false; generateCertFails := false |}.

(** A machine on which the server has never run: no configuration file,
    no directory for it. The flags carry their defaults. *)
Definition fresh : world :=
  {| environ := ∅; homeDir := inl "/root";
     hd := {| dirs := {[ "/"; "/root" ]}; files := ∅; refused := ∅ |};
     newLoggerFails := false; generateCertFails := false |}.

Definition default_flags : gmap string viper.flag :=
  list_to_map
    [ ("http-addr", {| viper.Value := VString "0.0.0.0:80";
                       viper.Changed := false |});
      ("tls-cert", {| viper.Value := VString "certs/abstruse-cert.pem";
                      viper.Changed := false |});
      ("tls-key", {| viper.Value := VString "certs/abstruse-key.pem";
                     viper.Changed := false |});
      ("db-host", {| viper.Value := VString "localhost";
                     viper.Changed := false |}) ].

(** A configuration file whose key is a number where a string is
    expected. *)
Definition master_json : app.content :=
  app.JSON (app.JObject [ ("cert", app.JString "cert.pem");
                          ("key", app.JNumber "5") ]).

(** The installation with its configuration file damaged. *)
Definition corrupted : world :=
  {| environ := ∅; homeDir := inl "/root";
     hd := {| dirs := dirs installed_disk;
              files := {[ server_json := Malformed ]};
              refused := ∅ |};
     newLoggerFails := false; generateCertFails := false |}.

(** An installation whose configuration file sets the database host
    only. *)
Definition sparse : world :=
  {| environ := ∅; homeDir := inl "/root";
     hd := {| dirs := dirs installed_disk;
              files := {[ server_json :=
                            Document {[ "db.host" := VString "localhost" ]} ]};
              refused := ∅ |};
     newLoggerFails := false; generateCertFails := false |}.


(** An installation whose certificate and key are in place. *)
Definition certified : world :=
  {| environ := ∅; homeDir := inl "/root";
     hd := {| dirs := {[ "/"; "/etc"; "/etc/abstruse";
                         "/etc/abstruse/certs" ]};
              files := {[ server_json := Document server_doc;
                          "/etc/abstruse/certs/cert.pem" := Blob;
                          "/etc/abstruse/certs/key.pem" := Blob ]};
              refused := ∅ |};
     newLoggerFails := false; generateCertFails := false |}.

(** A machine on which the home directory cannot be found. *)
Definition homeless : world :=
  {| environ := ∅; homeDir := inr ErrHomeDir;
     hd := {| dirs := {[ "/" ]}; files := ∅; refused := ∅ |};
     newLoggerFails := false; generateCertFails := false |}.


Definition keyless_json : app.content :=
  app.JSON (app.JObject [ ("key", app.JNumber "5");
                          ("log_level", app.JString "debug") ]).

(** * Proof tools *)

(** Running the functions of the package on a state whose fields are
    known: the definitions of the embedding are unfolded, the maps and the
    path functions are left alone. *)
Ltac run :=
  lazy beta iota zeta delta
    [SaveConfig InitConfig InitTLS InitAuthentication InitDB InitDefaults
     auth_Init db_Connect fs_GetHomeDir fs_Exists fs_MakeDir
     logger_NewLogger tlsutil_CheckAndGenerateCert viper_ConfigFileUsed
     viper_WriteConfigAs writeConfig viper_SafeWriteConfigAs
     viper_ReadInConfig viper_Unmarshal_Config settings negb Log_Infof
     Config_deref Config_assign viper_do bind modify gets ret check fatal
     panic set_ConfigFile set_Config set_Log set_registry set_authState
     set_dbConn set_disk emit ConfigFile Config Log registry authState
     dbConn os trace boot environ homeDir hd newLoggerFails
     generateCertFails viper.Set_ viper.ConfigFileUsed viper.SetConfigFile
     viper.SetConfigType viper.SetEnvPrefix viper.SetEnvKeyReplacer
     viper.AutomaticEnv viper.set_config viper.configFile viper.configType
     viper.envPrefix viper.envKeyReplacer viper.automaticEnvApplied
     viper.override viper.pflags viper.config].

(** The goals [InitConfig_post] leaves for a run that ends in [fatal]. *)
Ltac exit_case :=
  solve [ split; [by left | intros; congruence]
        | split; [by left | intros; by eauto]
        | split; [by right | intros; congruence] ].

(** The end of every run of [InitConfig]: reading and decoding the file,
    normalising the paths and building the logger. *)
Ltac load_tail :=
  match goal with
  | |- context [files ?d !! ?p] =>
      destruct (files d !! p) as [[|?m|]|] eqn:?Ef; run;
      [exit_case | | exit_case | exit_case]
  end;
  match goal with
  | |- context [decode ?m ?c] =>
      destruct (decode m c) as [?c0|?e] eqn:?Ed; run; [|exit_case]
  end;
  match goal with
  | |- context [if ?b then _ else _] => destruct b; run; [exit_case|]
  end.

(** Looking a key up among the settings [SaveConfig] has written. *)
Ltac saved_lookup :=
  match goal with
  | |- context [saved ?c ?v] =>
      destruct v; unfold saved; cbn [fold_left entries fst snd]; run;
      repeat (rewrite lookup_insert_ne; [|done]); apply lookup_insert_eq
  end.


(** * Properties *)

(** ** Paths *)

(** The path functions on the paths of the examples. *)
Example Clean_ex1 : filepath.Clean "/a/./b//../c/" = "/a/c".
Proof. reflexivity. Qed.
Example Clean_ex2 : filepath.Clean "a/../../b" = "../b".
Proof. reflexivity. Qed.
Example Clean_ex3 : filepath.Clean "/../a" = "/a".
Proof. reflexivity. Qed.
Example Dir_ex1 :
  filepath.Dir "/home/u/abstruse/abstruse-server.json" = "/home/u/abstruse".
Proof. reflexivity. Qed.
Example Dir_ex2 : filepath.Dir "abstruse.json" = ".".
Proof. reflexivity. Qed.
Example Dir_ex3 : filepath.Dir "/abstruse.json" = "/".
Proof. reflexivity. Qed.
Example Join_ex1 : filepath.Join ["."; "certs/cert.pem"] = "certs/cert.pem".
Proof. reflexivity. Qed.
Example Join_ex2 :
  filepath.Join ["/home/u"; "abstruse"; "abstruse-server.json"]
  = "/home/u/abstruse/abstruse-server.json".
Proof. reflexivity. Qed.
Example Join_ex3 : filepath.Join [""; "abstruse"; "x.json"] = "abstruse/x.json".
Proof. reflexivity. Qed.
Example envVar_ex : envVar "db.host" = "ABSTRUSE_DB_HOST".
Proof. reflexivity. Qed.

(** An absolute path is one that starts with a slash, and cleaning,
    taking the directory and joining under an absolute path keep it so. *)
Lemma IsAbs_cons (p : string) :
  filepath.IsAbs p = true ↔ ∃ r, p = String "/" r.
Proof.
  unfold filepath.IsAbs. split.
  - destruct p as [|c r]; cbn [strings.HasPrefix]; [discriminate|].
    rewrite andb_true_r. intros ->%Ascii.eqb_eq. eauto.
  - by intros [r ->].
Qed.

Lemma Clean_rooted (p : string) :
  filepath.IsAbs p = true → filepath.IsAbs (filepath.Clean p) = true.
Proof.
  intros H. pose proof H as [r ->]%IsAbs_cons.
  unfold filepath.Clean.
  change (String.eqb (String "/" r) "") with false. cbv iota.
  unfold filepath.IsAbs in H. cbv zeta. rewrite H.
  apply IsAbs_cons. eauto.
Qed.

Lemma Dir_rooted (p : string) :
  filepath.IsAbs p = true → filepath.IsAbs (filepath.Dir p) = true.
Proof.
  intros [r ->]%IsAbs_cons. apply Clean_rooted, IsAbs_cons.
  cbn [filepath.upto_last_sep].
  change (Ascii.eqb "/" "/") with true. cbn [orb]. eauto.
Qed.

Lemma Join_rooted (d p : string) :
  filepath.IsAbs d = true → filepath.IsAbs (filepath.Join [d; p]) = true.
Proof.
  intros H. pose proof H as [r ->]%IsAbs_cons.
  cbn [filepath.Join]. change (String.eqb (String "/" r) "") with false. cbv iota.
  apply Clean_rooted, IsAbs_cons. exists (r +:+ "/" +:+ p)%string.
  reflexivity.
Qed.

Lemma Resolve_abs (d p : string) :
  filepath.IsAbs d = true → filepath.IsAbs (Resolve d p) = true.
Proof.
  intros H. unfold Resolve.
  destruct (strings.HasPrefix p "/") eqn:E; cbn [negb]; [exact E|].
  by apply Join_rooted.
Qed.

Lemma Resolve_idem (d p : string) :
  filepath.IsAbs (Resolve d p) = true → Resolve d (Resolve d p) = Resolve d p.
Proof.
  intros H. unfold Resolve at 1. unfold filepath.IsAbs in H. by rewrite H.
Qed.

(** [Clean] and [Join] never return the empty path. *)
Lemma clean_elem_nonempty rooted out e :
  Forall (λ x, x ≠ "") out → Forall (λ x, x ≠ "") (filepath.clean_elem rooted out e).
Proof.
  intros H. unfold filepath.clean_elem.
  destruct (String.eqb e "") eqn:E1; cbn [orb]; [done|].
  assert (e ≠ "") by (by apply String.eqb_neq).
  destruct (String.eqb e "."); [done|].
  destruct (String.eqb e "..").
  - destruct out as [|top rest].
    + destruct rooted; [done|]. by constructor.
    + destruct (String.eqb top ".."); [by constructor|]. by inversion H.
  - by constructor.
Qed.

Lemma clean_fold_nonempty rooted l out :
  Forall (λ x, x ≠ "") out →
  Forall (λ x, x ≠ "") (fold_left (filepath.clean_elem rooted) l out).
Proof.
  revert out. induction l as [|e l IH]; intros out H; cbn [fold_left]; [done|].
  by apply IH, clean_elem_nonempty.
Qed.

Lemma Clean_nonempty (p : string) : filepath.Clean p ≠ "".
Proof.
  unfold filepath.Clean. destruct (String.eqb p ""); [done|]. cbv zeta.
  destruct (strings.HasPrefix p "/"); [done|].
  pose proof (clean_fold_nonempty false (strings.Split_sep p) [] (Forall_nil_2 _)) as H.
  apply Forall_rev in H.
  destruct (rev _) as [|x xs]; [done|].
  inversion H as [|? ? Hx _]; subst.
  cbn [String.concat]. destruct xs; [done|].
  destruct x; [done|]. done.
Qed.

Lemma Join_nonempty (e : string) (rest : list string) :
  e ≠ "" → filepath.Join (e :: rest) ≠ "".
Proof.
  intros H. cbn [filepath.Join]. apply String.eqb_neq in H. rewrite H.
  apply Clean_nonempty.
Qed.

(** ** Start-up

    [InitConfig], case by case. *)

Lemma located_nonempty s cf : located s = inl cf → String.eqb cf "" = false.
Proof.
  unfold located. destruct (String.eqb (ConfigFile s) "") eqn:E.
  - destruct (homeDir (os s)) as [h|]; [|discriminate]. intros [= <-].
    apply String.eqb_neq. destruct (String.eqb h ""); apply Clean_nonempty.
  - by intros [= <-].
Qed.

Lemma WriteFile_lookup d p f d' :
  fs.WriteFile d p f = inl d' → files d' !! p = Some f.
Proof.
  unfold fs.WriteFile. case_match; [discriminate|]. intros [= <-].
  cbn [files]. apply lookup_insert_eq.
Qed.

Lemma MakeDir_files d p d' : fs.MakeDir d p = inl d' → files d' = files d.
Proof. unfold fs.MakeDir. case_match; [discriminate|]. by intros [= <-]. Qed.

Lemma Exists_false_files d p : fs.Exists d p = false → files d !! p = None.
Proof.
  unfold fs.Exists. intros [_ H]%orb_false_iff.
  apply bool_decide_eq_false in H. by apply eq_None_not_Some.
Qed.

(** Reading, decoding, normalising and building the logger: the end of
    every run of [InitConfig]. *)
Lemma MakeDir_error d p e : fs.MakeDir d p = inr e → e = ErrMakeDir p.
Proof. unfold fs.MakeDir. case_match; [|discriminate]. by intros [= <-]. Qed.

Lemma WriteFile_error d p f e : fs.WriteFile d p f = inr e → e = ErrWrite p.
Proof. unfold fs.WriteFile. case_match; [|discriminate]. by intros [= <-]. Qed.

(** [InitConfig] when the configuration file is named. *)
Lemma InitConfig_given s :
  String.eqb (ConfigFile s) "" = false →
  InitConfig_post (ConfigFile s) s (InitConfig s).
Proof.
  destruct s as [cf cfg lg [vf vt vp vr va vo vfl vc] au db
                   [env home d nlf gcf] tr].
  unfold InitConfig_post, configured, normalize.
  cbn [ConfigFile]. intros Hne. run. rewrite Hne. run.
  destruct (fs.Exists d cf) eqn:Ex; run.
  - load_tail. eexists _, _.
    repeat split; first [reflexivity | eassumption | intros; congruence].
  - assert (files d !! cf = None) as Hf by (by apply Exists_false_files).
    destruct (fs.Exists d (filepath.Dir cf)) eqn:Exd; run.
    + rewrite Hf. cbn [bool_decide decide_rel is_Some_dec]. run.
      destruct (fs.WriteFile d cf _) as [d1|e] eqn:Ew; run.
      2:{ apply WriteFile_error in Ew. exit_case. }
      pose proof (WriteFile_lookup _ _ _ _ Ew) as Hw.
      destruct lg as [l|]; run; [|done].
      load_tail. eexists _, _.
      repeat split; first [reflexivity | eassumption | by eauto].
    + destruct (fs.MakeDir d (filepath.Dir cf)) as [d0|e] eqn:Em; run.
      2:{ apply MakeDir_error in Em. exit_case. }
      rewrite (MakeDir_files _ _ _ Em), Hf.
      cbn [bool_decide decide_rel is_Some_dec]. run.
      destruct (fs.WriteFile d0 cf _) as [d1|e] eqn:Ew; run.
      2:{ apply WriteFile_error in Ew. exit_case. }
      pose proof (WriteFile_lookup _ _ _ _ Ew) as Hw.
      destruct lg as [l|]; run; [|done].
      load_tail. eexists _, _.
      repeat split; first [reflexivity | eassumption | by eauto].
Qed.

(** [InitConfig] when it is not: the default location takes its place. *)
Lemma InitConfig_relocate s cf :
  located s = inl cf → InitConfig s = InitConfig (set_ConfigFile cf s).
Proof.
  intros El. pose proof (located_nonempty _ _ El) as Hne. revert El.
  destruct s as [cf0 cfg lg v au db [env home d nlf gcf] tr].
  unfold located. cbn [ConfigFile os homeDir].
  destruct (String.eqb cf0 "") eqn:E0.
  - destruct home as [h|]; [|discriminate]. intros El%(inj inl).
    run. rewrite E0, El, Hne. reflexivity.
  - intros <-%(inj inl). reflexivity.
Qed.

(** Every run of [InitConfig]. *)
Lemma InitConfig_cases s :
  match located s with
  | inl cf => InitConfig_post cf s (InitConfig s)
  | inr e => InitConfig s = Exit e s
  end.
Proof.
  destruct (located s) as [cf|e] eqn:El.
  - rewrite (InitConfig_relocate _ _ El).
    pose proof (InitConfig_given (set_ConfigFile cf s)) as H.
    cbn [ConfigFile set_ConfigFile] in H.
    specialize (H (located_nonempty _ _ El)).
    by destruct s.
  - revert El. unfold located.
    destruct s as [cf0 cfg lg v au db [env home d nlf gcf] tr].
    cbn [ConfigFile os homeDir]. run.
    destruct (String.eqb cf0 ""); [|discriminate].
    destruct home; [discriminate|]. by intros [= ->].
Qed.

(** ** [SaveConfig], step by step *)

(** The embedding of [SaveConfig] runs to the state [reinitialized] and
    then logs and writes, or panics for want of a logger. *)
Lemma SaveConfig_Some c s :
  SaveConfig (Some c) s =
  match Log s with
  | None => Panic (reinitialized c s)
  | Some _ =>
      let used := viper.configFile (registry s) in
      writeConfig used
        (emit (EvLogInfo ("saving config file to " +:+ used))
           (reinitialized c s))
  end.
Proof.
  destruct s as [cf cfg lg [vf vt vp vr va vo vfl vc] au db w tr].
  unfold reinitialized, saved. cbn [fold_left entries fst snd].
  destruct lg; run; reflexivity.
Qed.


(** ** The registry *)

(** A value written with [Set] is what [Get] reads and what is written
    out. *)
Lemma Get_override v env k x :
  viper.override v !! k = Some x → viper.Get v env k = Some x.
Proof. unfold viper.Get. intros ->. by rewrite !union_Some_l. Qed.

Lemma AllSettings_lookup v env k :
  viper.AllSettings v env !! k =
  (viper.override v ∪ (viper.Value <$> viper.pflags v) ∪ viper.config v) !! k
    ≫= λ _, viper.Get v env k.
Proof. unfold viper.AllSettings. by rewrite map_lookup_imap. Qed.

Lemma AllSettings_override v env k x :
  viper.override v !! k = Some x → viper.AllSettings v env !! k = Some x.
Proof.
  intros H. rewrite AllSettings_lookup.
  rewrite (lookup_union_Some_l _ _ _ x); [by apply Get_override|].
  by apply lookup_union_Some_l.
Qed.

Lemma saved_secret c v :
  viper.override (saved c v) !! "auth.jwtsecret" =
  Some (VString (config.Auth_JWTSecret (config.Auth c))).
Proof. saved_lookup. Qed.

Lemma saved_expiry c v :
  viper.override (saved c v) !! "auth.jwtexpiry" =
  Some (VInt (config.Auth_JWTExpiry (config.Auth c))).
Proof. saved_lookup. Qed.

Lemma saved_refreshExpiry c v :
  viper.override (saved c v) !! "auth.jwtrefreshexpiry" =
  Some (VInt (config.Auth_JWTRefreshExpiry (config.Auth c))).
Proof. saved_lookup. Qed.

Lemma saved_configFile c v :
  viper.configFile (saved c v) = viper.configFile v.
Proof. by destruct v. Qed.

(** The authentication state derived from the registry once the settings
    of [c] are in it. *)
Lemma reinitialized_authState c s :
  authState (reinitialized c s) =
  Some (config.Auth_JWTSecret (config.Auth c),
        config.Auth_JWTExpiry (config.Auth c),
        config.Auth_JWTRefreshExpiry (config.Auth c)).
Proof.
  unfold reinitialized. cbn [authState].
  unfold viper.GetString, viper.GetDuration.
  rewrite (Get_override _ _ _ _ (saved_secret c _)).
  rewrite (Get_override _ _ _ _ (saved_expiry c _)).
  by rewrite (Get_override _ _ _ _ (saved_refreshExpiry c _)).
Qed.

(** How [SaveConfig] ends for a configuration that is not nil, once the
    logger is there. *)
Lemma SaveConfig_logged c s l :
  Log s = Some l →
  let used := viper.configFile (registry s) in
  let s1 := emit (EvLogInfo ("saving config file to " +:+ used))
              (reinitialized c s) in
  match fs.WriteFile (hd (os s)) used (Document (settings s1)) with
  | inl d =>
      SaveConfig (Some c) s =
      Ok None (emit (EvWriteConfig used true) (set_disk d s1))
  | inr e =>
      e = ErrWrite used ∧
      SaveConfig (Some c) s = Ok (Some e) (emit (EvWriteConfig used false) s1)
  end.
Proof.
  intros Hl used s1. rewrite SaveConfig_Some, Hl. fold used. cbv zeta.
  fold s1. unfold writeConfig.
  change (hd (os s1)) with (hd (os s)).
  destruct (fs.WriteFile _ _ _) as [d|e] eqn:Ew; [done|].
  split; [|done]. by apply WriteFile_error in Ew.
Qed.

(** ** Reconfiguration *)



(** C2, as the code has it: when writing the file fails, [SaveConfig]
    returns the write error, the disk is as it was, and nothing is rolled
    back: [Config] is the new configuration, and the authentication and
    database packages have been initialised from it. *)
Theorem SaveConfig_persist_failure (c : config.Config) (s s' : state)
    (e : error) :
  SaveConfig (Some c) s = Ok (Some e) s' →
  e = ErrWrite (viper.configFile (registry s)) ∧
  hd (os s') = hd (os s) ∧
  Config s' = Some c ∧
  authState s' =
    Some (config.Auth_JWTSecret (config.Auth c),
          config.Auth_JWTExpiry (config.Auth c),
          config.Auth_JWTRefreshExpiry (config.Auth c)) ∧
  dbConn s' = Some (config.Db c, Log s).
Proof.
  destruct (Log s) as [l|] eqn:Hl.
  - pose proof (SaveConfig_logged c s l Hl) as H. cbv zeta in H.
    destruct (fs.WriteFile _ _ _) as [d|e'].
    + rewrite H. discriminate.
    + destruct H as [-> ->]. intros [= <- <-].
      split; [done|]. split; [done|]. split; [done|].
      split; [apply reinitialized_authState|]. cbn. by rewrite Hl.
  - rewrite SaveConfig_Some, Hl. discriminate.
Qed.

Lemma SaveConfig_persist_failure_witness :
  Config (state_of (SaveConfig (Some new_config) running_readonly))
  = Some new_config.
Proof.
  refine (proj1 (proj2 (proj2
    (SaveConfig_persist_failure new_config running_readonly
       (state_of (SaveConfig (Some new_config) running_readonly))
       (ErrWrite server_json) _)))).
  vm_compute. reflexivity.
Defined.

(** C2 fails on the code: with the configuration file write-protected,
    [SaveConfig] returns the write error and leaves the new configuration
    in [Config], not the one that was active before the call. *)
Lemma SaveConfig_no_rollback :
  match SaveConfig (Some new_config) running_readonly with
  | Ok (Some (ErrWrite _)) s' =>
      Config s' = Some new_config ∧ Config s' ≠ Config running_readonly
  | _ => False
  end.
Proof. vm_compute. split; [reflexivity|discriminate]. Qed.

(** C3, as the code has it: in every call of [SaveConfig] that returns,
    authentication and then the database are initialised from the new
    configuration first, and the configuration file is written last,
    whether the write succeeds or not. *)
Theorem SaveConfig_writes_last (c : config.Config) (s s' : state)
    (r : option error) :
  SaveConfig (Some c) s = Ok r s' →
  let used := viper.configFile (registry s) in
  trace s' =
  (trace s ++
    [ EvAuthInit (config.Auth_JWTSecret (config.Auth c))
        (config.Auth_JWTExpiry (config.Auth c))
        (config.Auth_JWTRefreshExpiry (config.Auth c));
      EvDbConnect (config.Db c);
      EvLogInfo ("saving config file to " +:+ used);
      EvWriteConfig used (match r with None => true | Some _ => false end)
    ])%list.
Proof.
  intros H used.
  pose proof (reinitialized_authState c s) as Ha.
  unfold reinitialized in Ha. cbn [authState] in Ha.
  injection Ha as Hs He Hr.
  destruct (Log s) as [l|] eqn:Hl.
  - pose proof (SaveConfig_logged c s l Hl) as H1. cbv zeta in H1.
    fold used in H1.
    destruct (fs.WriteFile _ _ _) as [d|e'].
    + rewrite H1 in H. injection H as <- <-.
      cbn [trace emit set_disk reinitialized]. rewrite Hs, He, Hr.
      by rewrite <- !app_assoc.
    + destruct H1 as [-> H1]. rewrite H1 in H. injection H as <- <-.
      cbn [trace emit reinitialized]. rewrite Hs, He, Hr.
      by rewrite <- !app_assoc.
  - rewrite SaveConfig_Some, Hl in H. discriminate.
Qed.

Lemma SaveConfig_writes_last_witness :
  trace (state_of (SaveConfig (Some new_config) running)) =
  (trace running ++
    [ EvAuthInit "new-secret" 900 86400;
      EvDbConnect (config.Db new_config);
      EvLogInfo ("saving config file to " +:+ server_json);
      EvWriteConfig server_json true ])%list.
Proof.
  refine (SaveConfig_writes_last new_config running
            (state_of (SaveConfig (Some new_config) running)) None _).
  vm_compute. reflexivity.
Defined.

(** C3 fails on the code: in this run of [SaveConfig] the write of the
    configuration file is the last event, after the initialisation of
    authentication and of the database. *)
Lemma SaveConfig_reinitializes_before_writing :
  trace (state_of (SaveConfig (Some new_config) running)) =
  [ EvReadConfig server_json;
    EvAuthInit "new-secret" 900 86400;
    EvDbConnect (config.Db new_config);
    EvLogInfo "saving config file to /etc/abstruse/abstruse-server.json";
    EvWriteConfig server_json true ].
Proof. vm_compute. reflexivity. Qed.



(** ** Path normalisation *)

Lemma Resolve_cases (d p : string) :
  Resolve d p = if filepath.IsAbs p then p else filepath.Join [d; p].
Proof. unfold Resolve, filepath.IsAbs. by destruct (strings.HasPrefix p "/"). Qed.

Lemma normalize_fields (d : string) (c : config.Config) :
  config.TLS_Cert (config.TLS (normalize d c))
    = Resolve d (config.TLS_Cert (config.TLS c)) ∧
  config.TLS_Key (config.TLS (normalize d c))
    = Resolve d (config.TLS_Key (config.TLS c)) ∧
  config.Etcd_DataDir (config.Etcd (normalize d c))
    = Resolve d (config.Etcd_DataDir (config.Etcd c)) ∧
  config.Log_Filename (config.Log (normalize d c))
    = Resolve d (config.Log_Filename (config.Log c)).
Proof. by repeat split. Qed.

(** C5, as the code has it: after [InitConfig] has returned, each of the
    four path-bearing fields is the decoded value when that starts with a
    slash and is otherwise the decoded value joined under the directory of
    the configuration file; the field is absolute provided the
    configuration file was named by an absolute path. *)
Theorem InitConfig_normalizes_paths (s s' : state) (u : unit) :
  InitConfig s = Ok u s' →
  ∃ c0 c,
    decode (settings s') (default config.zero (Config s)) = inl c0 ∧
    Config s' = Some c ∧
    let d := filepath.Dir (ConfigFile s') in
    normalized d (config.TLS_Cert (config.TLS c0))
                 (config.TLS_Cert (config.TLS c)) ∧
    normalized d (config.TLS_Key (config.TLS c0))
                 (config.TLS_Key (config.TLS c)) ∧
    normalized d (config.Etcd_DataDir (config.Etcd c0))
                 (config.Etcd_DataDir (config.Etcd c)) ∧
    normalized d (config.Log_Filename (config.Log c0))
                 (config.Log_Filename (config.Log c)) ∧
    (filepath.IsAbs (ConfigFile s') = true →
     filepath.IsAbs (config.TLS_Cert (config.TLS c)) = true ∧
     filepath.IsAbs (config.TLS_Key (config.TLS c)) = true ∧
     filepath.IsAbs (config.Etcd_DataDir (config.Etcd c)) = true ∧
     filepath.IsAbs (config.Log_Filename (config.Log c)) = true).
Proof.
  intros H. pose proof (InitConfig_cases s) as Hc.
  destruct (located s) as [cf|e]; [|rewrite Hc in H; discriminate].
  rewrite H in Hc.
  destruct Hc as (m & c0 & Hcf & _ & _ & _ & Hd & Hcfg & _).
  exists c0, (normalize (filepath.Dir cf) c0).
  split; [exact Hd|]. split; [exact Hcfg|]. rewrite Hcf. cbv zeta.
  destruct (normalize_fields (filepath.Dir cf) c0) as (-> & -> & -> & ->).
  unfold normalized. rewrite <- !Resolve_cases.
  repeat (split; [reflexivity|]).
  intros Habs%Dir_rooted. auto using Resolve_abs.
Qed.

Lemma InitConfig_normalizes_paths_witness :
  ∃ c, Config running = Some c ∧
       config.TLS_Cert (config.TLS c) = "/etc/abstruse/certs/cert.pem".
Proof.
  destruct (InitConfig_normalizes_paths
              (state_of (InitDefaults no_flags server_json (boot installed)))
              running tt) as (c0 & c & Hd & Hc & H1 & _).
  - vm_compute. reflexivity.
  - exists c. split; [exact Hc|]. rewrite H1.
    assert (config.TLS_Cert (config.TLS c0) = "certs/cert.pem") as ->.
    { revert Hd. vm_compute. by intros [= <-]. }
    vm_compute. reflexivity.
Defined.

(** C5 fails on the code: started with a relative configuration file
    path, [InitConfig] returns and leaves a relative certificate path in
    [Config]. *)
Lemma InitConfig_relative_config_file :
  match startup no_flags relative_json relative_install with
  | Ok _ s' =>
      (config.TLS_Cert ∘ config.TLS <$> Config s')
        = Some "conf/certs/cert.pem" ∧
      filepath.IsAbs "conf/certs/cert.pem" = false
  | _ => False
  end.
Proof. vm_compute. by split. Qed.

(** C6: normalising a normalised path against the same directory changes
    nothing once the path is absolute. *)
Theorem Resolve_idempotent (d p : string) :
  filepath.IsAbs (Resolve d p) = true →
  Resolve d (Resolve d p) = Resolve d p.
Proof. apply Resolve_idem. Qed.

Lemma Resolve_idempotent_witness :
  Resolve "/etc/abstruse" (Resolve "/etc/abstruse" "certs/cert.pem")
  = Resolve "/etc/abstruse" "certs/cert.pem".
Proof. apply Resolve_idempotent. vm_compute. reflexivity. Defined.

(** After [InitConfig], with the configuration file named by an absolute
    path, the normalisation [InitTLS] repeats changes nothing: it goes on
    with the certificate and key paths as they are in [Config]. *)
Lemma InitTLS_after_InitConfig (s s' : state) (u : unit) :
  InitConfig s = Ok u s' →
  filepath.IsAbs (ConfigFile s') = true →
  ∃ c, Config s' = Some c ∧
       InitTLS s' =
       InitTLS_with (config.TLS_Cert (config.TLS c))
                    (config.TLS_Key (config.TLS c)) s'.
Proof.
  intros H Habs. pose proof (InitConfig_cases s) as Hc.
  destruct (located s) as [cf|e]; [|rewrite Hc in H; discriminate].
  rewrite H in Hc.
  destruct Hc as (m & c0 & Hcf & _ & Hreg & _ & _ & Hcfg & _).
  eexists. split; [exact Hcfg|].
  unfold InitTLS, bind, Config_deref, viper_ConfigFileUsed, gets.
  rewrite Hcfg, Hreg. subst cf. apply Dir_rooted in Habs.
  destruct (normalize_fields (filepath.Dir (ConfigFile s')) c0)
    as (-> & -> & _).
  assert (viper.ConfigFileUsed
            (viper.set_config m (configured (ConfigFile s') (registry s)))
          = ConfigFile s') as -> by reflexivity.
  by rewrite !Resolve_idem by (by apply Resolve_abs).
Qed.

(** ** The first run *)



(** C8 on the code: on a fresh machine, started without a configuration
    file path, [InitConfig] makes the directory and writes the default
    configuration file, and then panics on the nil logger: the file is
    never read and [Config] stays nil. *)
Lemma InitConfig_fresh_environment_panics :
  match startup default_flags "" fresh with
  | Panic s' =>
      ConfigFile s' = "/root/abstruse/abstruse-server.json" ∧
      trace s' =
        [ EvMakeDir "/root/abstruse";
          EvWriteConfig "/root/abstruse/abstruse-server.json" true ] ∧
      fs.Exists (hd (os s')) "/root/abstruse" = true ∧
      files (hd (os s')) !! "/root/abstruse/abstruse-server.json" =
        Some (Document (list_to_map
                [ ("http.addr", VString "0.0.0.0:80");
                  ("tls.cert", VString "certs/abstruse-cert.pem");
                  ("tls.key", VString "certs/abstruse-key.pem");
                  ("db.host", VString "localhost") ])) ∧
      Config s' = None ∧ Log s' = None
  | _ => False
  end.
Proof. vm_compute. repeat split. Qed.

(** ** Precedence of the configuration sources *)

(** [InitDefaults] binds the flags and returns. *)
Lemma InitDefaults_Ok cmd cfgFile s :
  InitDefaults cmd cfgFile s =
  Ok tt (set_registry (bindAll cmd flagBindings (registry s))
           (set_ConfigFile cfgFile s)).
Proof. reflexivity. Qed.

Lemma bindAll_cons cmd k fl l v :
  bindAll cmd ((k, fl) :: l) v =
  bindAll cmd l (viper.BindPFlag k (cmd !! fl) v).
Proof. reflexivity. Qed.

Lemma BindPFlag_pflags k f v k' :
  viper.pflags (viper.BindPFlag k f v) !! k' =
  if decide (k = k') then f ∪ viper.pflags v !! k'
  else viper.pflags v !! k'.
Proof.
  destruct f as [f|]; cbn [viper.BindPFlag viper.pflags].
  - rewrite lookup_insert. case_decide; [by rewrite union_Some_l|done].
  - case_decide; [by rewrite (left_id None _)|done].
Qed.

Lemma bindAll_pflags_other cmd l v k :
  k ∉ l.*1 →
  viper.pflags (bindAll cmd l v) !! k = viper.pflags v !! k.
Proof.
  revert v. induction l as [|[k0 fl0] l IH]; intros v Hk; [done|].
  rewrite bindAll_cons.
  rewrite fmap_cons, not_elem_of_cons in Hk. destruct Hk as [Hne Hk].
  rewrite IH by done. rewrite BindPFlag_pflags.
  cbn [fst] in Hne. by rewrite decide_False.
Qed.

Lemma bindAll_pflags cmd l v k fl :
  NoDup l.*1 → (k, fl) ∈ l →
  viper.pflags (bindAll cmd l v) !! k = cmd !! fl ∪ viper.pflags v !! k.
Proof.
  revert v. induction l as [|[k0 fl0] l IH]; intros v Hnd Hin.
  { by apply elem_of_nil in Hin. }
  rewrite fmap_cons in Hnd. apply NoDup_cons in Hnd as [Hk0 Hnd].
  rewrite bindAll_cons. cbn [fst] in Hk0.
  apply elem_of_cons in Hin as [[= -> ->]|Hin].
  - rewrite bindAll_pflags_other by done.
    rewrite BindPFlag_pflags. by rewrite decide_True.
  - rewrite IH by done. rewrite BindPFlag_pflags.
    rewrite decide_False; [done|]. intros ->.
    apply Hk0. apply (list_elem_of_fmap_2 fst) in Hin. done.
Qed.

Lemma bindAll_fields cmd l v :
  viper.override (bindAll cmd l v) = viper.override v ∧
  viper.config (bindAll cmd l v) = viper.config v.
Proof.
  revert v. induction l as [|[k0 fl0] l IH]; intros v; [done|].
  rewrite bindAll_cons.
  destruct (IH (viper.BindPFlag k0 (cmd !! fl0) v)) as [-> ->].
  by destruct (cmd !! fl0).
Qed.

Lemma flagBindings_NoDup : NoDup flagBindings.*1.
Proof. apply (bool_decide_unpack _). by vm_compute. Qed.






(** ** The master application's configuration file *)

Section ReadAndParseConfig.

Context {EtcdConfig GRPCConfig : Type}.
Context (etcd_zero : EtcdConfig) (grpc_zero : GRPCConfig).
Context (decode_etcd :
           app.json → EtcdConfig → EtcdConfig * option app.json_error).
Context (decode_grpc :
           app.json → GRPCConfig → GRPCConfig * option app.json_error).

#[local] Abbreviation zero :=
  (app.zero EtcdConfig GRPCConfig etcd_zero grpc_zero).
#[local] Abbreviation Unmarshal :=
  (app.Unmarshal EtcdConfig GRPCConfig decode_etcd decode_grpc).
#[local] Abbreviation ReadAndParseConfig :=
  (app.ReadAndParseConfig EtcdConfig GRPCConfig etcd_zero grpc_zero
     decode_etcd decode_grpc).

(** C10, as the code has it: [ReadAndParseConfig] returns an error exactly
    when the file cannot be read or [json.Unmarshal] reports an error for
    its content; the returned [Config] is what [json.Unmarshal] left in
    the zero value, which is the zero value itself when the file cannot be
    read or is not a JSON text, and the decoded content when the error is
    nil. *)
Theorem ReadAndParseConfig_result (files : gmap string app.content)
    (configPath : string) :
  let (config, err) := ReadAndParseConfig files configPath in
  (err = None ↔
   ∃ file, files !! configPath = Some file ∧ (Unmarshal file zero).2 = None) ∧
  (files !! configPath = None → config = zero ∧ err = Some app.ErrorReading) ∧
  (files !! configPath = Some app.NotJSON →
   config = zero ∧ err = Some (app.ErrorParsing app.SyntaxError)) ∧
  (∀ file, files !! configPath = Some file →
           config = (Unmarshal file zero).1).
Proof.
  unfold app.ReadAndParseConfig.
  destruct (files !! configPath) as [file|] eqn:Hf.
  - destruct (Unmarshal file zero) as [config [e|]] eqn:Hu.
    + split; [|split; [done|split]].
      * split; [done|]. intros (f & [= <-] & H). by rewrite Hu in H.
      * intros [= ->]. by injection Hu as <- <-.
      * intros f [= <-]. by rewrite Hu.
    + split; [|split; [done|split]].
      * split; [|done]. intros _. exists file. by rewrite Hu.
      * intros [= ->]. discriminate Hu.
      * intros f [= <-]. by rewrite Hu.
  - split; [|split; [done|split; [done|]]].
    + split; [done|]. by intros (f & [=] & _).
    + done.
Qed.

End ReadAndParseConfig.

(** C10 fails on the code: for a file that is a JSON text but holds a
    number under [key], the error is not nil and the returned [Config] is
    not the zero value, the certificate path having been decoded. (The two
    nested sections, which the file leaves out, are taken to be empty.) *)
Lemma ReadAndParseConfig_partial_config :
  let no_section := λ (_ : app.json) (x : unit), (x, @None app.json_error) in
  let (config, err) :=
    app.ReadAndParseConfig unit unit tt tt no_section no_section
      {[ "/etc/abstruse/master.json" := master_json ]}
      "/etc/abstruse/master.json" in
  err = Some (app.ErrorParsing (app.UnmarshalTypeError "key")) ∧
  app.Cert unit unit config = "cert.pem" ∧
  config ≠ app.zero unit unit tt tt.
Proof. vm_compute. by repeat split. Qed.

(** * Further properties *)

(** ** The two ways [InitConfig] goes on *)

Lemma decode_decoded m old c : decode m old = inl c → decoded m old c.
Proof.
  unfold decode. cbv zeta.
  repeat match goal with
         | |- context [match viper.field_string ?a ?b ?c with _ => _ end] =>
             destruct (viper.field_string a b c) eqn:?; [|discriminate]
         | |- context [match viper.field_int ?a ?b ?c with _ => _ end] =>
             destruct (viper.field_int a b c) eqn:?; [|discriminate]
         | |- context [match viper.field_bool ?a ?b ?c with _ => _ end] =>
             destruct (viper.field_bool a b c) eqn:?; [|discriminate]
         end.
  intros [= <-]. unfold decoded. repeat split; assumption.
Qed.

Lemma decoded_decode m old c : decoded m old c → decode m old = inl c.
Proof.
  unfold decoded. intros H. unfold decode. cbv zeta.
  repeat match type of H with
         | ?E ∧ _ => let H1 := fresh in destruct H as [H1 H]; rewrite H1; clear H1
         end.
  rewrite H.
  by destruct c as [[] [] [] [] [] []].
Qed.

Lemma InitConfig_existing s cf :
  located s = inl cf →
  fs.Exists (hd (os s)) cf = true →
  InitConfig s =
  match files (hd (os s)) !! cf with
  | Some (Document m) => loaded cf m (Config s) (pointed cf s)
  | Some _ => Exit (ErrParse cf) (pointed cf s)
  | None => Exit (ErrRead cf) (pointed cf s)
  end.
Proof.
  intros El Hex. rewrite (InitConfig_relocate _ _ El).
  pose proof (located_nonempty _ _ El) as Hne. clear El.
  destruct s as [cf0 cfg lg [vf vt vp vr va vo vfl vc] au db
                   [env home d nlf gcf] tr].
  unfold loaded, pointed, configured, normalize. cbn [hd os] in Hex.
  run. rewrite Hne. run. rewrite Hex. run.
  destruct (files d !! cf) as [[|m|]|]; run; try reflexivity.
  destruct (decode _ _); run; [|reflexivity].
  destruct nlf; reflexivity.
Qed.

Lemma pointed_pointed cf s : pointed cf (pointed cf s) = pointed cf s.
Proof. by destruct s as [? ? ? [] ? ? ? ?]. Qed.

Lemma WriteFile_Exists d p f d' :
  fs.WriteFile d p f = inl d' → fs.Exists d' p = true.
Proof.
  intros H%WriteFile_lookup. unfold fs.Exists. rewrite H.
  rewrite (bool_decide_eq_true_2 (is_Some (Some f))) by by eexists.
  apply orb_true_r.
Qed.

(** Without a configuration file [InitConfig] writes the settings out as
    the file and then goes on as it does when it finds the file. *)
Lemma InitConfig_first_run s cf :
  located s = inl cf →
  fs.Exists (hd (os s)) cf = false →
  InitConfig s =
  match ensured (filepath.Dir cf) (pointed cf s) with
  | inr e => Exit e (pointed cf s)
  | inl s2 =>
      match fs.WriteFile (hd (os s2)) cf (Document (settings s2)) with
      | inr e => Exit e (emit (EvWriteConfig cf false) s2)
      | inl d =>
          let s3 := emit (EvWriteConfig cf true) (set_disk d s2) in
          match Log s with
          | None => Panic s3
          | Some _ =>
              InitConfig (emit (EvLogInfo ("config file save to " +:+ cf)) s3)
          end
      end
  end.
Proof.
  intros El Hex. rewrite (InitConfig_relocate _ _ El).
  pose proof (located_nonempty _ _ El) as Hne. clear El.
  pose proof (Exists_false_files _ _ Hex) as Hf.
  destruct s as [cf0 cfg lg [vf vt vp vr va vo vfl vc] au db
                   [env home d nlf gcf] tr].
  unfold ensured, pointed, configured. cbn [hd os files] in Hex, Hf.
  run. rewrite Hne. run. rewrite Hex. run.
  destruct (fs.Exists d (filepath.Dir cf)) eqn:Exd; run.
  - rewrite Hf. cbn [bool_decide decide_rel is_Some_dec]. run.
    destruct (fs.WriteFile d cf _) as [d1|e] eqn:Ew; run; [|reflexivity].
    destruct lg as [l|]; run; [|reflexivity].
    rewrite Hne. run. rewrite (WriteFile_Exists _ _ _ _ Ew). run.
    reflexivity.
  - destruct (fs.MakeDir d (filepath.Dir cf)) as [d0|e] eqn:Em; run;
      [|reflexivity].
    rewrite (MakeDir_files _ _ _ Em), Hf.
    cbn [bool_decide decide_rel is_Some_dec]. run.
    destruct (fs.WriteFile d0 cf _) as [d1|e] eqn:Ew; run; [|reflexivity].
    destruct lg as [l|]; run; [|reflexivity].
    rewrite Hne. run. rewrite (WriteFile_Exists _ _ _ _ Ew). run.
    reflexivity.
Qed.

(** ** [InitConfig]: where the file is, and what happens when it cannot be
    used *)

(** X1: started without a configuration file path, [InitConfig] behaves
    as if it had been given the path [abstruse/abstruse-server.json] under
    the home directory. *)
Theorem InitConfig_default_location (s : state) (home : string) :
  ConfigFile s = "" →
  homeDir (os s) = inl home →
  InitConfig s =
  InitConfig
    (set_ConfigFile
       (filepath.Join [home; "abstruse"; "abstruse-server.json"]) s).
Proof.
  intros Hcf Hh. apply InitConfig_relocate. unfold located.
  by rewrite Hcf, Hh.
Qed.

Lemma InitConfig_default_location_witness :
  InitConfig (state_of (InitDefaults default_flags "" (boot fresh))) =
  InitConfig
    (set_ConfigFile "/root/abstruse/abstruse-server.json"
       (state_of (InitDefaults default_flags "" (boot fresh)))).
Proof.
  exact (InitConfig_default_location
           (state_of (InitDefaults default_flags "" (boot fresh)))
           "/root" eq_refl eq_refl).
Defined.

(** X2: when no configuration file path is given and the home directory
    cannot be found, [InitConfig] exits with that error and has changed
    nothing: not the registry, not the disk. *)
Theorem InitConfig_no_home (s : state) (e : error) :
  ConfigFile s = "" →
  homeDir (os s) = inr e →
  InitConfig s = Exit e s.
Proof.
  intros Hcf Hh. pose proof (InitConfig_cases s) as H.
  unfold located in H. by rewrite Hcf, Hh in H.
Qed.

Lemma InitConfig_no_home_witness :
  InitConfig (boot homeless) = Exit ErrHomeDir (boot homeless).
Proof. exact (InitConfig_no_home (boot homeless) ErrHomeDir eq_refl eq_refl). Defined.

(** X3: when something is at the configuration file path that is not a
    readable JSON document (a directory, malformed text), [InitConfig]
    exits with the read or parse error; it does not write defaults over
    it, and [Config], [Log], the disk and the trace are as they were. *)
Theorem InitConfig_unusable_file (s : state) (cf : string) :
  located s = inl cf →
  fs.Exists (hd (os s)) cf = true →
  (∀ m, files (hd (os s)) !! cf ≠ Some (Document m)) →
  ∃ e s',
    InitConfig s = Exit e s' ∧
    (e = ErrParse cf ∨ e = ErrRead cf) ∧
    Config s' = Config s ∧ Log s' = Log s ∧ os s' = os s ∧
    trace s' = trace s.
Proof.
  intros El Hex Hdoc. rewrite (InitConfig_existing _ _ El Hex).
  destruct (files (hd (os s)) !! cf) as [[|m|]|] eqn:Hf.
  - eexists _, _. split; [reflexivity|]. by destruct s; auto 10.
  - by destruct (Hdoc m).
  - eexists _, _. split; [reflexivity|]. by destruct s; auto 10.
  - eexists _, _. split; [reflexivity|]. by destruct s; auto 10.
Qed.

Lemma InitConfig_unusable_file_witness :
  ∃ e s',
    InitConfig (state_of (InitDefaults no_flags server_json (boot corrupted)))
      = Exit e s' ∧
    (e = ErrParse server_json ∨ e = ErrRead server_json) ∧
    Config s' = None ∧ Log s' = None ∧ os s' = corrupted ∧ trace s' = [].
Proof.
  apply (InitConfig_unusable_file
           (state_of (InitDefaults no_flags server_json (boot corrupted)))
           server_json).
  - reflexivity.
  - vm_compute. reflexivity.
  - intros m. vm_compute. discriminate.
Defined.

(** X4: when the configuration file exists, [InitConfig] only reads:
    however it ends, the disk is as it was, and the only event it adds is
    the reading of the file. *)
Theorem InitConfig_reads_only (s : state) (cf : string) :
  located s = inl cf →
  fs.Exists (hd (os s)) cf = true →
  hd (os (state_of (InitConfig s))) = hd (os s) ∧
  (trace (state_of (InitConfig s)) = trace s ∨
   trace (state_of (InitConfig s)) = (trace s ++ [EvReadConfig cf])%list).
Proof.
  intros El Hex. rewrite (InitConfig_existing _ _ El Hex).
  destruct (files (hd (os s)) !! cf) as [[|m|]|];
    try (destruct s; by auto).
  unfold loaded. cbv zeta.
  destruct (decode _ _); [|destruct s; by auto].
  destruct (newLoggerFails _); destruct s; by auto.
Qed.

Lemma InitConfig_reads_only_witness :
  hd (os running) = installed_disk ∧
  (trace running = [] ∨
   trace running = ([] ++ [EvReadConfig server_json])%list).
Proof.
  apply (InitConfig_reads_only
           (state_of (InitDefaults no_flags server_json (boot installed)))
           server_json).
  - reflexivity.
  - vm_compute. reflexivity.
Defined.

(** ** [InitConfig]: the first run, with a logger *)

Lemma Get_set_config m v env k :
  viper.Get (viper.set_config m v) env k =
  viper.override v !! k ∪ viper.flagGiven v k ∪ viper.getEnv v env k
    ∪ m !! k ∪ viper.flagDefault v k.
Proof. by destruct v. Qed.

Lemma known_set_config m v k :
  (viper.override (viper.set_config m v)
     ∪ (viper.Value <$> viper.pflags (viper.set_config m v))
     ∪ viper.config (viper.set_config m v)) !! k =
  viper.override v !! k ∪ (viper.Value <$> viper.pflags v !! k) ∪ m !! k.
Proof. destruct v. cbn. by rewrite !lookup_union, lookup_fmap. Qed.

(** Writing the settings out and reading them back as the file changes no
    setting. *)
Lemma AllSettings_reread v env :
  viper.AllSettings (viper.set_config (viper.AllSettings v env) v) env
  = viper.AllSettings v env.
Proof.
  apply map_eq. intros k.
  rewrite (AllSettings_lookup (viper.set_config _ _)).
  rewrite known_set_config, Get_set_config.
  rewrite (AllSettings_lookup v env k).
  rewrite !lookup_union, lookup_fmap.
  unfold viper.Get, viper.flagGiven, viper.flagDefault.
  destruct (viper.override v !! k) as [x1|],
    (viper.pflags v !! k) as [[x2 []]|], (viper.config v !! k) as [x4|],
    (viper.getEnv v env k) as [x3|]; reflexivity.
Qed.

Lemma WriteFile_dirs d p f d' : fs.WriteFile d p f = inl d' → dirs d' = dirs d.
Proof. unfold fs.WriteFile. case_match; [discriminate|]. by intros [= <-]. Qed.

Lemma ensured_dir dir s1 s2 :
  ensured dir s1 = inl s2 →
  fs.Exists (hd (os s2)) dir = true ∧
  files (hd (os s2)) = files (hd (os s1)) ∧
  registry s2 = registry s1 ∧ environ (os s2) = environ (os s1) ∧
  Config s2 = Config s1 ∧ ConfigFile s2 = ConfigFile s1.
Proof.
  unfold ensured. destruct (fs.Exists (hd (os s1)) dir) eqn:E.
  - by intros [= <-].
  - destruct (fs.MakeDir _ _) as [d|e] eqn:Em; [|discriminate].
    intros [= <-]. split; [|by rewrite <- (MakeDir_files _ _ _ Em)].
    revert Em. unfold fs.MakeDir. case_match; [discriminate|].
    intros [= <-]. cbn. unfold fs.Exists. cbn [dirs].
    rewrite bool_decide_eq_true_2; [done|set_solver].
Qed.

Lemma WriteFile_Exists_mono d p f d' q :
  fs.WriteFile d p f = inl d' → fs.Exists d q = true → fs.Exists d' q = true.
Proof.
  unfold fs.WriteFile. case_match; [discriminate|]. intros [= <-].
  unfold fs.Exists. cbn [dirs files].
  intros [Hq|Hq]%orb_true_iff; apply orb_true_iff; [by left|right].
  apply bool_decide_eq_true in Hq. apply bool_decide_eq_true.
  rewrite lookup_insert. destruct (decide (p = q)); [by eexists|done].
Qed.

(** X5: a first run that returns (the logger was there) has made the
    directory of the configuration file, has written the settings in force
    (the defaults, as flags and environment change them) as the file, and
    has read that file back without any setting changing; [Config] is
    decoded from these settings and then normalised. *)
Theorem InitConfig_first_run_round_trip (s s' : state) (cf : string)
    (u : unit) :
  located s = inl cf →
  fs.Exists (hd (os s)) cf = false →
  InitConfig s = Ok u s' →
  let written :=
    viper.AllSettings (configured cf (registry s)) (environ (os s)) in
  is_Some (Log s) ∧
  fs.Exists (hd (os s')) (filepath.Dir cf) = true ∧
  files (hd (os s')) !! cf = Some (Document written) ∧
  viper.config (registry s') = written ∧
  settings s' = written ∧
  ∃ c0, decode written (default config.zero (Config s)) = inl c0 ∧
        Config s' = Some (normalize (filepath.Dir cf) c0).
Proof.
  intros El Hex H written. rewrite (InitConfig_first_run _ _ El Hex) in H.
  destruct (ensured _ _) as [s2|e] eqn:He; [|discriminate].
  apply ensured_dir in He as (Hdir & Hfiles & Hreg & Henv & Hcfg & Hcf).
  assert (settings s2 = written) as Hs2.
  { unfold settings. rewrite Hreg, Henv. by destruct s. }
  rewrite Hs2 in H.
  destruct (fs.WriteFile _ _ _) as [d|e] eqn:Hw; [|discriminate].
  cbv zeta in H. destruct (Log s) as [l|] eqn:Hl; [|discriminate].
  split; [by eexists|].
  set (s4 := emit _ _) in H.
  assert (located s4 = inl cf) as El4.
  { unfold located. change (ConfigFile s4) with (ConfigFile s2).
    rewrite Hcf. change (ConfigFile (pointed cf s)) with cf.
    by rewrite (located_nonempty _ _ El). }
  assert (hd (os s4) = d) as Hd4 by (by destruct s2 as [? ? ? ? ? ? []]).
  rewrite (InitConfig_existing _ _ El4) in H
    by (rewrite Hd4; by apply WriteFile_Exists in Hw).
  rewrite Hd4, (WriteFile_lookup _ _ _ _ Hw) in H.
  assert (registry (pointed cf s4) = configured cf (registry s)) as Hreg4.
  { change (registry (pointed cf s4)) with (configured cf (registry s2)).
    rewrite Hreg. by destruct s as [? ? ? [] ? ? ? ?]. }
  assert (environ (os (pointed cf s4)) = environ (os s)) as Henv4.
  { change (environ (os (pointed cf s4))) with (environ (os (set_disk d s2))).
    destruct s2 as [? ? ? ? ? ? []]. cbn in *. rewrite Henv. by destruct s. }
  assert (fs.Exists d (filepath.Dir cf) = true) as Hdird
    by (by apply (WriteFile_Exists_mono _ _ _ _ _ Hw)).
  unfold loaded in H. cbv zeta in H.
  assert (viper.AllSettings
            (viper.set_config written (configured cf (registry s)))
            (environ (os s)) = written) as Hre
    by apply AllSettings_reread.
  revert H. unfold settings.
  change (registry (emit ?e ?t)) with (registry t).
  change (os (emit ?e ?t)) with (os t).
  change (registry (set_registry ?v ?t)) with v.
  change (os (set_registry ?v ?t)) with (os t).
  rewrite Hreg4, Henv4, Hre.
  change (Config s4) with (Config s2). rewrite Hcfg.
  change (Config (pointed cf s)) with (Config s).
  destruct (decode written _) as [c0|e] eqn:Hdec; [|discriminate].
  destruct (newLoggerFails _); [discriminate|]. intros [= Hs']. subst s'.
  cbn [os hd registry Config set_Log set_Config emit set_registry
       viper.config viper.set_config].
  change (hd (os (pointed cf s4))) with (hd (os s4)).
  rewrite Hd4.
  change (environ (os (pointed cf s4))) with (environ (os s4)).
  change (environ (os (pointed cf s4))) with (environ (os s4)) in Henv4.
  rewrite Henv4, Hre.
  split; [done|]. split; [by apply (WriteFile_lookup _ _ _ _ Hw)|].
  by eauto.
Qed.

Lemma InitConfig_first_run_round_trip_witness :
  fs.Exists
    (hd (os (state_of (InitConfig
       (set_Log (Some {| logger_config := config.Log config.zero |})
          (state_of (InitDefaults default_flags "" (boot fresh))))))))
    "/root/abstruse" = true.
Proof.
  set (s := set_Log _ _).
  destruct (InitConfig_first_run_round_trip s (state_of (InitConfig s))
              "/root/abstruse/abstruse-server.json" tt)
    as (_ & Hdir & _).
  - reflexivity.
  - vm_compute. reflexivity.
  - vm_compute. reflexivity.
  - exact Hdir.
Defined.

(** ** [InitConfig]: running it again *)

Lemma field_string_idem m k old x :
  viper.field_string m k old = inl x → viper.field_string m k x = inl x.
Proof.
  unfold viper.field_string. destruct (m !! k) as [[]|]; by intros [= <-].
Qed.

Lemma field_int_idem m k old x :
  viper.field_int m k old = inl x → viper.field_int m k x = inl x.
Proof.
  unfold viper.field_int. destruct (m !! k) as [[]|]; by intros [= <-].
Qed.

Lemma field_bool_idem m k old x :
  viper.field_bool m k old = inl x → viper.field_bool m k x = inl x.
Proof.
  unfold viper.field_bool. destruct (m !! k) as [[]|]; by intros [= <-].
Qed.

Lemma field_string_again m k old x y :
  viper.field_string m k old = inl x →
  viper.field_string m k y = inl (redecoded m k x y).
Proof.
  unfold viper.field_string, redecoded.
  destruct (m !! k) as [[]|]; by intros [= <-].
Qed.

Lemma Resolve_redecoded d m k x :
  filepath.IsAbs d = true →
  Resolve d (redecoded m k x (Resolve d x)) = Resolve d x.
Proof.
  intros Hd. unfold redecoded. destruct (m !! k); [done|].
  by apply Resolve_idem, Resolve_abs.
Qed.

(** Decoding the same settings over the normalised configuration, and
    normalising again, gives the normalised configuration. *)
Lemma decode_again m old c0 d :
  filepath.IsAbs d = true →
  decode m old = inl c0 →
  ∃ c0', decode m (normalize d c0) = inl c0' ∧
         normalize d c0' = normalize d c0.
Proof.
  intros Hd H%decode_decoded.
  set (R := λ k x, redecoded m k x (Resolve d x)).
  exists (config.set_TLS_Key
            (R "tls.key" (config.TLS_Key (config.TLS c0)))
         (config.set_TLS_Cert
            (R "tls.cert" (config.TLS_Cert (config.TLS c0)))
         (config.set_Log_Filename
            (R "log.filename" (config.Log_Filename (config.Log c0)))
         (config.set_Etcd_DataDir
            (R "etcd.datadir" (config.Etcd_DataDir (config.Etcd c0)))
            c0)))).
  split.
  - apply decoded_decode. unfold decoded in *.
    destruct H as (H1 & H2 & H3 & H4 & H5 & H6 & H7 & H8 & H9 & H10 & H11
                   & H12 & H13 & H14 & H15 & H16 & H17 & H18 & H19 & H20
                   & H21 & H22 & H23 & H24 & H25 & H26 & H27 & H28).
    cbn [normalize config.set_TLS_Key config.set_TLS_Cert
         config.set_Log_Filename config.set_Etcd_DataDir
         config.HTTP config.TLS config.Db config.Etcd config.Auth config.Log
         config.HTTP_Addr config.HTTP_TLS config.TLS_Cert config.TLS_Key
         config.Db_Driver config.Db_Host config.Db_Port config.Db_User
         config.Db_Password config.Db_Name config.Db_Charset
         config.Etcd_Name config.Etcd_Host config.Etcd_ClientPort
         config.Etcd_PeerPort config.Etcd_DataDir config.Etcd_Username
         config.Etcd_Password config.Etcd_RootPassword
         config.Auth_JWTSecret config.Auth_JWTExpiry
         config.Auth_JWTRefreshExpiry config.Log_Level config.Log_Stdout
         config.Log_Filename config.Log_MaxSize config.Log_MaxBackups
         config.Log_MaxAge].
    unfold R.
    repeat split;
      eauto using field_string_idem, field_int_idem, field_bool_idem,
        field_string_again.
  - unfold normalize, R. cbn. by rewrite !Resolve_redecoded.
Qed.

(** Every run of [InitConfig] that returns has ended by reading a
    document from the configuration file it was pointed at. *)
Lemma InitConfig_Ok_loaded s u s' :
  InitConfig s = Ok u s' →
  ∃ cf m t,
    String.eqb cf "" = false ∧
    files (hd (os t)) !! cf = Some (Document m) ∧
    loaded cf m (Config s) (pointed cf t) = Ok u s'.
Proof.
  intros H. pose proof (InitConfig_cases s) as Hc.
  destruct (located s) as [cf|e] eqn:El; [clear Hc|by rewrite Hc in H].
  pose proof (located_nonempty _ _ El) as Hne.
  destruct (fs.Exists (hd (os s)) cf) eqn:Hex.
  - rewrite (InitConfig_existing _ _ El Hex) in H.
    destruct (files (hd (os s)) !! cf) as [[|m|]|] eqn:Hf; try discriminate.
    exists cf, m, s. done.
  - rewrite (InitConfig_first_run _ _ El Hex) in H.
    destruct (ensured _ _) as [s2|e] eqn:He; [|discriminate].
    apply ensured_dir in He as (_ & _ & _ & _ & Hcfg & Hcf).
    destruct (fs.WriteFile _ _ _) as [d|e] eqn:Hw; [|discriminate].
    cbv zeta in H. destruct (Log s) as [l|]; [|discriminate].
    set (s4 := emit _ _) in H.
    assert (located s4 = inl cf) as El4.
    { unfold located. change (ConfigFile s4) with (ConfigFile s2).
      rewrite Hcf. change (ConfigFile (pointed cf s)) with cf.
      by rewrite Hne. }
    assert (hd (os s4) = d) as Hd4 by (by destruct s2 as [? ? ? ? ? ? []]).
    rewrite (InitConfig_existing _ _ El4) in H
      by (rewrite Hd4; by apply WriteFile_Exists in Hw).
    rewrite Hd4, (WriteFile_lookup _ _ _ _ Hw) in H.
    change (Config s4) with (Config s2) in H. rewrite Hcfg in H.
    change (Config (pointed cf s)) with (Config s) in H.
    exists cf, (settings s2), s4. by rewrite Hd4, (WriteFile_lookup _ _ _ _ Hw).
Qed.

Lemma files_Exists d p f : files d !! p = Some f → fs.Exists d p = true.
Proof.
  intros H. unfold fs.Exists. rewrite H.
  rewrite (bool_decide_eq_true_2 (is_Some (Some f))) by by eexists.
  apply orb_true_r.
Qed.

(** X6: [InitConfig] can be run again. After a run that returned, with the
    configuration file named by an absolute path, a second run returns
    too and leaves [Config], [Log], the registry and the disk exactly as
    the first run left them; it only reads the file once more. *)
Theorem InitConfig_again (s s' : state) (u : unit) :
  InitConfig s = Ok u s' →
  filepath.IsAbs (ConfigFile s') = true →
  ∃ s'',
    InitConfig s' = Ok tt s'' ∧
    Config s'' = Config s' ∧ Log s'' = Log s' ∧
    registry s'' = registry s' ∧ os s'' = os s' ∧
    trace s'' = (trace s' ++ [EvReadConfig (ConfigFile s')])%list.
Proof.
  intros H Habs.
  apply InitConfig_Ok_loaded in H as (cf & m & t & Hne & Hf & H).
  revert H. unfold loaded. cbv zeta.
  destruct (decode _ _) as [c0|e] eqn:Hdec; [|discriminate].
  destruct (newLoggerFails _) eqn:Hnl; [discriminate|].
  intros [= Hs']. subst s'.
  change (filepath.IsAbs cf = true) in Habs.
  apply Dir_rooted in Habs.
  destruct (decode_again _ _ _ _ Habs Hdec) as (c0' & Hdec' & Hnorm).
  set (s' := set_Log _ _).
  assert (located s' = inl cf) as El' by (unfold located; cbn; by rewrite Hne).
  assert (hd (os s') = hd (os t)) as Hhd by (by destruct t).
  rewrite (InitConfig_existing _ _ El')
    by (rewrite Hhd; by apply (files_Exists _ _ _ Hf)).
  rewrite Hhd, Hf. unfold loaded. cbv zeta.
  assert (settings
            (emit (EvReadConfig cf)
               (set_registry
                  (viper.set_config m (registry (pointed cf s')))
                  (pointed cf s'))) =
          settings
            (emit (EvReadConfig cf)
               (set_registry (viper.set_config m (registry (pointed cf t)))
                  (pointed cf t)))) as ->
    by (by destruct t as [? ? ? [] ? ? [] ?]).
  change (Config s') with (Some (normalize (filepath.Dir cf) c0)).
  cbn [default from_option]. change (id ?x) with x.
  rewrite Hdec'.
  assert (newLoggerFails (os (pointed cf s')) = false) as ->
    by (rewrite <- Hnl; by destruct t).
  eexists. split; [reflexivity|]. rewrite Hnorm.
  by destruct t as [? ? ? [] ? ? [] ?].
Qed.

Lemma InitConfig_again_witness :
  ∃ s'',
    InitConfig running = Ok tt s'' ∧
    Config s'' = Config running ∧ Log s'' = Log running ∧
    registry s'' = registry running ∧ os s'' = os running ∧
    trace s'' = (trace running ++ [EvReadConfig (ConfigFile running)])%list.
Proof.
  apply (InitConfig_again
           (state_of (InitDefaults no_flags server_json (boot installed)))
           running tt).
  - vm_compute. reflexivity.
  - vm_compute. reflexivity.
Defined.

(** ** Paths: [Clean] returns a clean path *)

Lemma Split_sep_cons_inv c r :
  ∃ h t, strings.Split_sep (String c r) = h :: t.
Proof.
  cbn [strings.Split_sep]. destruct (Ascii.eqb c "/"); [by eauto|].
  destruct (strings.Split_sep r); by eauto.
Qed.

Lemma Split_sep_nonnil p : strings.Split_sep p ≠ [].
Proof.
  destruct p as [|c r]; [done|].
  by destruct (Split_sep_cons_inv c r) as (h & t & ->).
Qed.

Lemma Split_sep_no_sep p :
  Forall (λ e, filepath.has_sep e = false) (strings.Split_sep p).
Proof.
  induction p as [|c r IH]; cbn [strings.Split_sep].
  { by constructor. }
  destruct (Ascii.eqb c "/") eqn:Ec; [by constructor|].
  destruct (strings.Split_sep r) as [|h t]; [by repeat constructor; cbn; rewrite Ec|].
  inversion IH; subst. constructor; [|done]. cbn. by rewrite Ec.
Qed.

Lemma append_cons c e s : String c e +:+ s = String c (e +:+ s).
Proof. reflexivity. Qed.

Lemma Split_sep_app e r :
  filepath.has_sep e = false →
  strings.Split_sep (e +:+ String "/" r) = e :: strings.Split_sep r.
Proof.
  induction e as [|c e IH]; [done|].
  cbn [filepath.has_sep]. intros [Hc He]%orb_false_iff.
  rewrite append_cons. cbn [strings.Split_sep]. rewrite Hc.
  by rewrite (IH He).
Qed.

Lemma Split_sep_single e :
  filepath.has_sep e = false → strings.Split_sep e = [e].
Proof.
  induction e as [|c e IH]; cbn [strings.Split_sep filepath.has_sep];
    [done|].
  intros [Hc He]%orb_false_iff. rewrite Hc. by rewrite (IH He).
Qed.

Lemma Split_sep_concat l :
  l ≠ [] → Forall (λ e, filepath.has_sep e = false) l →
  strings.Split_sep (String.concat "/" l) = l.
Proof.
  induction l as [|x [|y l] IH]; intros Hne Hl; [done| |].
  - cbn. apply Split_sep_single. by inversion Hl.
  - inversion Hl as [|? ? Hx Hl']; subst.
    change (String.concat "/" (x :: y :: l))
      with (x +:+ String "/" (String.concat "/" (y :: l))).
    rewrite (Split_sep_app _ _ Hx). f_equal. by apply IH.
Qed.

Lemma clean_elem_kept rooted out e :
  filepath.has_sep e = false → kept rooted out →
  kept rooted (filepath.clean_elem rooted out e).
Proof.
  intros He (nn & dd & -> & Hnn & Hdd & Hr). unfold filepath.clean_elem.
  destruct (String.eqb e "") eqn:E1; cbn [orb]; [by exists nn, dd|].
  destruct (String.eqb e ".") eqn:E2; [by exists nn, dd|].
  destruct (String.eqb e "..") eqn:E3.
  - apply String.eqb_eq in E3 as ->.
    destruct nn as [|n nn]; cbn [app].
    + destruct dd as [|d dd].
      * destruct rooted; [by exists [], []|].
        exists [], [".."]. by repeat split; auto.
      * inversion Hdd; subst. change (String.eqb ".." "..") with true.
        cbv iota. exists [], (".." :: ".." :: dd).
        split; [done|]. split; [done|]. split; [by repeat constructor|].
        intros Hroot. by specialize (Hr Hroot).
    + inversion Hnn as [|? ? (_ & _ & Hn & _) Hnn']; subst. rewrite Hn.
      by exists nn, dd.
  - exists (e :: nn), dd. split; [done|]. split; [|done].
    by constructor.
Qed.

Lemma clean_fold_kept rooted l out :
  Forall (λ e, filepath.has_sep e = false) l → kept rooted out →
  kept rooted (fold_left (filepath.clean_elem rooted) l out).
Proof.
  revert out. induction l as [|e l IH]; intros out Hl Hk; [done|].
  inversion Hl; subst. cbn [fold_left].
  by apply IH, clean_elem_kept.
Qed.

Lemma clean_fold_plain rooted l out :
  Forall plain l →
  fold_left (filepath.clean_elem rooted) l out = (rev l ++ out)%list.
Proof.
  revert out. induction l as [|e l IH]; intros out Hl; [done|].
  inversion Hl as [|? ? (E1 & E2 & E3 & _) Hl']; subst. cbn [fold_left].
  unfold filepath.clean_elem at 2. rewrite E1, E2, E3. cbn [orb].
  rewrite (IH _ Hl'). cbn [rev]. by rewrite <- app_assoc.
Qed.

Lemma clean_fold_dotdot l out :
  Forall (λ e, e = "..") l → Forall (λ e, e = "..") out →
  fold_left (filepath.clean_elem false) l out = (rev l ++ out)%list.
Proof.
  revert out. induction l as [|e l IH]; intros out Hl Ho; [done|].
  inversion Hl as [|? ? -> Hl']; subst. cbn [fold_left].
  assert (filepath.clean_elem false out ".." = ".." :: out) as ->.
  { destruct out as [|o out]; [done|]. by inversion Ho; subst. }
  rewrite (IH _ Hl') by by constructor.
  cbn [rev]. by rewrite <- app_assoc.
Qed.

Lemma plain_no_sep e : plain e → filepath.has_sep e = false.
Proof. by intros (_ & _ & _ & ?). Qed.

(** The path [Clean] builds from the kept elements splits into these
    elements again, and cleaning it keeps them all. *)
Lemma kept_refold rooted out :
  kept rooted out →
  Forall (λ e, filepath.has_sep e = false) (rev out) ∧
  Forall (λ e, e ≠ "") (rev out) ∧
  fold_left (filepath.clean_elem rooted) (rev out) [] = out.
Proof.
  intros (nn & dd & -> & Hnn & Hdd & Hr).
  rewrite rev_app_distr. split; [|split].
  - apply Forall_app. split; apply Forall_rev.
    + eapply Forall_impl; [exact Hdd|]. by intros ? ->.
    + eapply Forall_impl; [exact Hnn|]. apply plain_no_sep.
  - apply Forall_app. split; apply Forall_rev.
    + eapply Forall_impl; [exact Hdd|]. by intros ? ->.
    + eapply Forall_impl; [exact Hnn|]. intros e (E & _).
      by apply String.eqb_neq.
  - rewrite fold_left_app.
    assert (fold_left (filepath.clean_elem rooted) (rev dd) [] = dd) as ->.
    { destruct rooted.
      - by rewrite (Hr eq_refl).
      - rewrite clean_fold_dotdot by (by try apply Forall_rev).
        by rewrite rev_involutive, app_nil_r. }
    rewrite clean_fold_plain by by apply Forall_rev.
    by rewrite rev_involutive.
Qed.

Lemma HasPrefix_slash_concat x xs :
  x ≠ "" → filepath.has_sep x = false →
  strings.HasPrefix (String.concat "/" (x :: xs)) "/" = false.
Proof.
  intros Hx Hs. destruct x as [|c x]; [done|].
  cbn [filepath.has_sep] in Hs. apply orb_false_iff in Hs as [Hc _].
  assert (∃ r, String.concat "/" (String c x :: xs) = String c r) as [r ->].
  { destruct xs; [by eexists|]. by eexists. }
  cbn [strings.HasPrefix]. rewrite Ascii.eqb_sym in Hc. by rewrite Hc.
Qed.

Lemma concat_nonempty x xs : x ≠ "" → String.concat "/" (x :: xs) ≠ "".
Proof. intros Hx. destruct x; [done|]. by destruct xs. Qed.

(** Cleaning a clean path changes nothing. *)
Lemma Clean_idem (p : string) :
  filepath.Clean (filepath.Clean p) = filepath.Clean p.
Proof.
  destruct (String.eqb p "") eqn:Ep.
  { by apply String.eqb_eq in Ep as ->. }
  unfold filepath.Clean at 2 3. rewrite Ep. cbv zeta.
  pose proof (clean_fold_kept (strings.HasPrefix p "/")
                (strings.Split_sep p) [] (Split_sep_no_sep p)) as Hk.
  specialize (Hk ltac:(by exists [], [])).
  apply kept_refold in Hk as (Hsep & Hne & Hfold).
  remember (fold_left (filepath.clean_elem (strings.HasPrefix p "/"))
              (strings.Split_sep p) []) as st eqn:Est.
  clear Est. remember (rev st) as out eqn:Eout.
  destruct (strings.HasPrefix p "/") eqn:Hroot.
  - unfold filepath.Clean.
    change (String.eqb (String "/" (String.concat "/" out)) "") with false.
    cbv iota zeta.
    change (strings.HasPrefix (String "/" (String.concat "/" out)) "/")
      with true. cbv iota.
    change (strings.Split_sep (String "/" (String.concat "/" out)))
      with ("" :: strings.Split_sep (String.concat "/" out)).
    cbn [fold_left]. change (filepath.clean_elem true [] "") with (@nil string).
    destruct out as [|x xs]; [reflexivity|].
    rewrite Split_sep_concat by done. by rewrite Hfold, <- Eout.
  - destruct out as [|x xs]; [reflexivity|].
    pose proof (Forall_inv Hne) as Hx. pose proof (Forall_inv Hsep) as Hs.
    cbv beta in Hx, Hs. unfold filepath.Clean.
    rewrite (proj2 (String.eqb_neq _ _) (concat_nonempty x xs Hx)).
    cbv zeta. rewrite (HasPrefix_slash_concat _ _ Hx Hs).
    rewrite Split_sep_concat by done. by rewrite Hfold, <- Eout.
Qed.

Lemma Split_sep_trailing p :
  strings.Split_sep (p +:+ "/") = (strings.Split_sep p ++ [""])%list.
Proof.
  induction p as [|c p IH]; [reflexivity|].
  rewrite append_cons. cbn [strings.Split_sep]. rewrite IH.
  destruct (Ascii.eqb c "/"); [reflexivity|].
  destruct (strings.Split_sep p) eqn:E; [|reflexivity].
  by destruct (Split_sep_nonnil p).
Qed.

(** A trailing separator does not change what [Clean] returns. *)
Lemma Clean_trailing (p : string) :
  p ≠ "" → filepath.Clean (p +:+ "/") = filepath.Clean p.
Proof.
  intros Hp. destruct p as [|c p]; [done|]. unfold filepath.Clean.
  rewrite append_cons.
  change (String.eqb (String c (p +:+ "/")) "") with false.
  change (String.eqb (String c p) "") with false. cbv iota zeta.
  change (strings.HasPrefix (String c (p +:+ "/")) "/")
    with (strings.HasPrefix (String c p) "/").
  rewrite <- append_cons, Split_sep_trailing, fold_left_app.
  cbn [fold_left]. by unfold filepath.clean_elem at 1 3.
Qed.

(** An empty path resolves to the base directory, cleaned. *)
Lemma Resolve_empty (d : string) :
  d ≠ "" → Resolve d "" = filepath.Clean d.
Proof.
  intros Hd. unfold Resolve. cbn [strings.HasPrefix negb].
  cbn [filepath.Join]. rewrite (proj2 (String.eqb_neq _ _) Hd).
  change (String.concat "/" [d; ""]) with (d +:+ "/" +:+ "").
  change ("/" +:+ "") with "/". by apply Clean_trailing.
Qed.

Lemma Resolve_empty_Dir (f : string) :
  Resolve (filepath.Dir f) "" = filepath.Dir f.
Proof.
  rewrite Resolve_empty by apply Clean_nonempty. apply Clean_idem.
Qed.

(** ** [InitConfig]: a path that is not set *)

Lemma field_string_unset m k x :
  unset m k → viper.field_string m k "" = inl x → x = "".
Proof.
  unfold viper.field_string. by intros [-> | ->]; intros [= <-].
Qed.

(** X7: at process start, a path-bearing field whose key has no setting
    (or the empty text) does not stay empty: [InitConfig] makes it the
    directory of the configuration file itself. *)
Theorem InitConfig_unset_path (s s' : state) (u : unit) :
  InitConfig s = Ok u s' →
  Config s = None →
  ∃ c, Config s' = Some c ∧
    let dir := filepath.Dir (ConfigFile s') in
    (unset (settings s') "tls.cert" → config.TLS_Cert (config.TLS c) = dir) ∧
    (unset (settings s') "tls.key" → config.TLS_Key (config.TLS c) = dir) ∧
    (unset (settings s') "etcd.datadir" →
     config.Etcd_DataDir (config.Etcd c) = dir) ∧
    (unset (settings s') "log.filename" →
     config.Log_Filename (config.Log c) = dir).
Proof.
  intros H Hnil. pose proof (InitConfig_cases s) as Hc.
  destruct (located s) as [cf|e]; [|rewrite Hc in H; discriminate].
  rewrite H in Hc.
  destruct Hc as (m & c0 & Hcf & _ & _ & _ & Hd & Hcfg & _).
  rewrite Hnil in Hd. cbn [default from_option] in Hd.
  apply decode_decoded in Hd.
  destruct Hd as (_ & _ & H3 & H4 & _ & _ & _ & _ & _ & _ & _ & _ & _ & _
                  & _ & H16 & _ & _ & _ & _ & _ & _ & _ & _ & H25 & _).
  exists (normalize (filepath.Dir cf) c0). split; [exact Hcfg|].
  rewrite Hcf. cbv zeta.
  destruct (normalize_fields (filepath.Dir cf) c0) as (-> & -> & -> & ->).
  unfold settings.
  repeat split; intros Hu.
  - by rewrite (field_string_unset _ _ _ Hu H3), Resolve_empty_Dir.
  - by rewrite (field_string_unset _ _ _ Hu H4), Resolve_empty_Dir.
  - by rewrite (field_string_unset _ _ _ Hu H16), Resolve_empty_Dir.
  - by rewrite (field_string_unset _ _ _ Hu H25), Resolve_empty_Dir.
Qed.

Lemma InitConfig_unset_path_witness :
  config.Log_Filename ∘ config.Log <$>
    Config (state_of (startup no_flags server_json sparse))
  = Some "/etc/abstruse".
Proof.
  destruct (InitConfig_unset_path
              (state_of (InitDefaults no_flags server_json (boot sparse)))
              (state_of (startup no_flags server_json sparse)) tt)
    as (c & Hc & _ & _ & _ & Hlog).
  - vm_compute. reflexivity.
  - reflexivity.
  - rewrite Hc. cbn. f_equal. rewrite Hlog.
    + vm_compute. reflexivity.
    + left. vm_compute. reflexivity.
Defined.

(** ** [SaveConfig]: what it leaves in force *)

Lemma fold_Set_frame l v :
  let v' := fold_left (λ v kx, viper.Set_ kx.1 kx.2 v) l v in
  viper.configFile v' = viper.configFile v ∧
  viper.configType v' = viper.configType v ∧
  viper.envPrefix v' = viper.envPrefix v ∧
  viper.envKeyReplacer v' = viper.envKeyReplacer v ∧
  viper.automaticEnvApplied v' = viper.automaticEnvApplied v ∧
  viper.pflags v' = viper.pflags v ∧
  viper.config v' = viper.config v.
Proof.
  revert v. induction l as [|[k x] l IH]; intros v; [done|].
  cbn [fold_left fst snd]. cbv zeta in IH.
  destruct (IH (viper.Set_ k x v)) as (-> & -> & -> & -> & -> & -> & ->).
  by destruct v.
Qed.

Lemma fold_Set_other l v k :
  k ∉ l.*1 →
  viper.override (fold_left (λ v kx, viper.Set_ kx.1 kx.2 v) l v) !! k
  = viper.override v !! k.
Proof.
  revert v. induction l as [|[k0 x] l IH]; intros v Hk; [done|].
  rewrite fmap_cons, not_elem_of_cons in Hk. destruct Hk as [Hne Hk].
  cbn [fold_left fst snd]. rewrite (IH _ Hk).
  destruct v. cbn. by rewrite lookup_insert_ne.
Qed.

Lemma fold_Set_lookup l v k x :
  NoDup l.*1 → (k, x) ∈ l →
  viper.override (fold_left (λ v kx, viper.Set_ kx.1 kx.2 v) l v) !! k
  = Some x.
Proof.
  revert v. induction l as [|[k0 x0] l IH]; intros v Hnd Hin.
  { by apply elem_of_nil in Hin. }
  rewrite fmap_cons in Hnd. apply NoDup_cons in Hnd as [Hk0 Hnd].
  cbn [fold_left fst snd] in *.
  apply elem_of_cons in Hin as [[= -> ->]|Hin].
  - rewrite fold_Set_other by done. destruct v. cbn.
    apply lookup_insert_eq.
  - by apply IH.
Qed.

Lemma entries_keys c : (entries c).*1 = flagBindings.*1.
Proof. reflexivity. Qed.

Lemma saved_lookup_entry c v k x :
  (k, x) ∈ entries c → viper.override (saved c v) !! k = Some x.
Proof.
  apply fold_Set_lookup. rewrite entries_keys. apply flagBindings_NoDup.
Qed.

Lemma saved_lookup_other c v k :
  k ∉ flagBindings.*1 →
  viper.override (saved c v) !! k = viper.override v !! k.
Proof. intros Hk. apply fold_Set_other. by rewrite entries_keys. Qed.

(** Settings that hold every entry of [c] decode to [c], whatever the
    struct held before. *)
Lemma decode_entries m c old :
  (∀ k x, (k, x) ∈ entries c → m !! k = Some x) → decode m old = inl c.
Proof.
  intros Hm. apply decoded_decode. unfold decoded.
  unfold viper.field_string, viper.field_int, viper.field_bool.
  repeat match goal with
         | |- context [m !! ?k] =>
             let H := fresh in
             eassert (m !! k = Some _) as H
               by (apply Hm; unfold entries;
                   repeat first [ apply list_elem_of_here
                                | apply list_elem_of_further ]);
             rewrite H; clear H
         end.
  by repeat split.
Qed.

(** A call that returned [a] returned it in the state it ended in. *)
Lemma Ok_state_of {A} (r : outcome A) (a : A) :
  match r with Ok a' _ => a' = a | _ => False end → r = Ok a (state_of r).
Proof. destruct r; [by intros ->|done|done]. Qed.

Lemma SaveConfig_Ok c s r s' :
  SaveConfig (Some c) s = Ok r s' →
  let used := viper.configFile (registry s) in
  let doc := Document (settings (announced c s)) in
  is_Some (Log s) ∧
  match r with
  | None =>
      ∃ d, fs.WriteFile (hd (os s)) used doc = inl d ∧
           s' = emit (EvWriteConfig used true) (set_disk d (announced c s))
  | Some e =>
      fs.WriteFile (hd (os s)) used doc = inr e ∧
      s' = emit (EvWriteConfig used false) (announced c s)
  end.
Proof.
  intros H. destruct (Log s) as [l|] eqn:Hl.
  - split; [by eexists|].
    pose proof (SaveConfig_logged c s l Hl) as H1. cbv zeta in H1.
    fold (announced c s) in H1. cbv zeta.
    destruct (fs.WriteFile _ _ _) as [d|e'] eqn:Hw.
    + rewrite H1 in H. injection H as <- <-. by eauto.
    + destruct H1 as [-> H1]. rewrite H1 in H. by injection H as <- <-.
  - rewrite SaveConfig_Some, Hl in H. discriminate.
Qed.

Lemma settings_announced c s :
  settings (announced c s)
  = viper.AllSettings (saved c (registry s)) (environ (os s)).
Proof. reflexivity. Qed.

Lemma SaveConfig_registry c s r s' :
  SaveConfig (Some c) s = Ok r s' →
  registry s' = saved c (registry s) ∧ environ (os s') = environ (os s).
Proof.
  intros H%SaveConfig_Ok. cbv zeta in H. destruct H as [_ H].
  destruct r as [e|].
  - by destruct H as [_ ->].
  - destruct H as (d & _ & ->). split; [done|]. by destruct s as [? ? ? ? ? ? []].
Qed.

Lemma AllSettings_saved c v env k x :
  (k, x) ∈ entries c → viper.AllSettings (saved c v) env !! k = Some x.
Proof. intros H. by apply AllSettings_override, saved_lookup_entry. Qed.

(** X8: once [SaveConfig] has returned for [c], every one of the 28 keys
    reads as [c] has it, whatever flags, environment and file say: the
    registry decodes to [c] itself, over any struct. Flags and environment
    no longer override these keys for the rest of the process. *)
Theorem SaveConfig_settings_in_force (c : config.Config) (s s' : state)
    (r : option error) :
  SaveConfig (Some c) s = Ok r s' →
  (∀ k x, (k, x) ∈ entries c →
          viper.Get (registry s') (environ (os s')) k = Some x) ∧
  (∀ old, decode (settings s') old = inl c).
Proof.
  intros [Hreg Henv]%SaveConfig_registry. unfold settings.
  rewrite Hreg, Henv. split.
  - intros k x Hin. by apply Get_override, saved_lookup_entry.
  - intros old. apply decode_entries. intros k x. apply AllSettings_saved.
Qed.

Lemma SaveConfig_settings_in_force_witness :
  decode (settings (state_of (SaveConfig (Some new_config) running)))
    config.zero
  = inl new_config.
Proof.
  refine (proj2 (SaveConfig_settings_in_force new_config running
            (state_of (SaveConfig (Some new_config) running)) None _) _).
  apply Ok_state_of. vm_compute. reflexivity.
Defined.



(** X10: [SaveConfig] changes nothing but what it is there to change. When
    it has returned, [ConfigFile] and [Log] are as they were, flags, file
    tier and environment of the registry are as they were, no directory
    was made, and no file other than the configuration file differs. *)
Theorem SaveConfig_frame (c : config.Config) (s s' : state)
    (r : option error) :
  SaveConfig (Some c) s = Ok r s' →
  ConfigFile s' = ConfigFile s ∧ Log s' = Log s ∧
  viper.configFile (registry s') = viper.configFile (registry s) ∧
  viper.pflags (registry s') = viper.pflags (registry s) ∧
  viper.config (registry s') = viper.config (registry s) ∧
  environ (os s') = environ (os s) ∧
  dirs (hd (os s')) = dirs (hd (os s)) ∧
  ∀ p, p ≠ viper.configFile (registry s) →
       files (hd (os s')) !! p = files (hd (os s)) !! p.
Proof.
  intros H. destruct (SaveConfig_registry _ _ _ _ H) as [Hreg Henv].
  apply SaveConfig_Ok in H. cbv zeta in H. destruct H as [_ H].
  rewrite Hreg.
  destruct (fold_Set_frame (entries c) (registry s))
    as (Hf & _ & _ & _ & _ & Hp & Hc).
  cbv zeta in Hf, Hp, Hc. fold (saved c (registry s)) in Hf, Hp, Hc.
  rewrite Hf, Hp, Hc.
  destruct r as [e|].
  - destruct H as [_ ->]. by destruct s.
  - destruct H as (d & Hw & ->).
    assert (dirs d = dirs (hd (os s)) ∧
            ∀ p, p ≠ viper.configFile (registry s) →
                 files d !! p = files (hd (os s)) !! p) as [Hd Hfiles].
    { revert Hw. unfold fs.WriteFile. case_match; [discriminate|].
      intros [= <-]. split; [done|]. intros p Hp'. cbn [files].
      by rewrite lookup_insert_ne. }
    destruct s as [? ? ? ? ? ? [] ?]. cbn in *. by auto 10.
Qed.

Lemma SaveConfig_frame_witness :
  Log (state_of (SaveConfig (Some new_config) running)) = Log running.
Proof.
  refine (proj1 (proj2 (SaveConfig_frame new_config running
            (state_of (SaveConfig (Some new_config) running)) None _))).
  apply Ok_state_of. vm_compute. reflexivity.
Defined.

(** X11: called before a logger is assigned, [SaveConfig] panics only
    after it has replaced [Config], filled the registry and initialised
    authentication and the database from the new configuration; nothing
    is written. *)
Theorem SaveConfig_nil_Log (c : config.Config) (s : state) :
  Log s = None →
  ∃ s',
    SaveConfig (Some c) s = Panic s' ∧
    Config s' = Some c ∧
    registry s' = saved c (registry s) ∧
    authState s' =
      Some (config.Auth_JWTSecret (config.Auth c),
            config.Auth_JWTExpiry (config.Auth c),
            config.Auth_JWTRefreshExpiry (config.Auth c)) ∧
    dbConn s' = Some (config.Db c, None) ∧
    os s' = os s.
Proof.
  intros Hl. rewrite SaveConfig_Some, Hl. eexists. split; [reflexivity|].
  split; [done|]. split; [done|].
  split; [apply reinitialized_authState|]. cbn. by rewrite Hl.
Qed.

Lemma SaveConfig_nil_Log_witness :
  ∃ s', SaveConfig (Some new_config) (boot installed) = Panic s' ∧
        Config s' = Some new_config ∧ os s' = installed.
Proof.
  destruct (SaveConfig_nil_Log new_config (boot installed) eq_refl)
    as (s' & H & Hc & _ & _ & _ & Ho).
  by exists s'.
Defined.

Lemma Viper_eq (v1 v2 : viper.Viper) :
  viper.configFile v1 = viper.configFile v2 →
  viper.configType v1 = viper.configType v2 →
  viper.envPrefix v1 = viper.envPrefix v2 →
  viper.envKeyReplacer v1 = viper.envKeyReplacer v2 →
  viper.automaticEnvApplied v1 = viper.automaticEnvApplied v2 →
  viper.override v1 = viper.override v2 →
  viper.pflags v1 = viper.pflags v2 →
  viper.config v1 = viper.config v2 →
  v1 = v2.
Proof. destruct v1, v2. cbn. by intros -> -> -> -> -> -> -> ->. Qed.

(** Writing the settings of [c] into a registry that holds them changes
    nothing. *)
Lemma saved_saved c v : saved c (saved c v) = saved c v.
Proof.
  destruct (fold_Set_frame (entries c) (saved c v))
    as (H1 & H2 & H3 & H4 & H5 & H6 & H7).
  cbv zeta in *. fold (saved c (saved c v)) in *.
  apply Viper_eq; try done.
  apply map_eq. intros k.
  destruct (decide (k ∈ flagBindings.*1)) as [Hk|Hk].
  - rewrite <- (entries_keys c) in Hk.
    apply list_elem_of_fmap in Hk as ([k' x] & -> & Hin). cbn [fst].
    by rewrite !(saved_lookup_entry _ _ _ _ Hin).
  - by rewrite saved_lookup_other.
Qed.

Lemma WriteFile_again d p f d' :
  fs.WriteFile d p f = inl d' → fs.WriteFile d' p f = inl d'.
Proof.
  unfold fs.WriteFile. destruct (_ || _) eqn:E; [discriminate|].
  intros [= <-]. cbn [refused dirs files]. rewrite E.
  by rewrite insert_insert_eq.
Qed.

(** X12: saving the same configuration again is harmless. After a
    [SaveConfig] that returned nil, a second [SaveConfig] of the same
    configuration returns nil too and leaves [Config], the registry, the
    disk, and the state of authentication and database as they are. *)
Theorem SaveConfig_again (c : config.Config) (s s' : state) :
  SaveConfig (Some c) s = Ok None s' →
  ∃ s'',
    SaveConfig (Some c) s' = Ok None s'' ∧
    Config s'' = Config s' ∧ registry s'' = registry s' ∧
    os s'' = os s' ∧ authState s'' = authState s' ∧
    dbConn s'' = dbConn s'.
Proof.
  intros H. pose proof (SaveConfig_Ok _ _ _ _ H) as H1. cbv zeta in H1.
  destruct H1 as ([l Hl] & d & Hw & Hs').
  assert (Log s' = Some l) as Hl' by (subst s'; exact Hl).
  pose proof (SaveConfig_logged c s' l Hl') as H2. cbv zeta in H2.
  assert (registry s' = saved c (registry s)) as Hreg by (by subst s').
  assert (hd (os s') = d) as Hd by (subst s'; by destruct s as [? ? ? ? ? ? []]).
  assert (environ (os s') = environ (os s)) as Henv
    by (subst s'; by destruct s as [? ? ? ? ? ? []]).
  revert H2. rewrite Hd. unfold settings.
  change (registry (emit ?e ?t)) with (registry t).
  change (os (emit ?e ?t)) with (os t).
  change (registry (reinitialized c s')) with (saved c (registry s')).
  change (os (reinitialized c s')) with (os s').
  rewrite Hreg, saved_saved, saved_configFile, Henv.
  rewrite settings_announced in Hw. rewrite (WriteFile_again _ _ _ _ Hw).
  intros ->. eexists. split; [reflexivity|].
  cbn [Config registry os authState dbConn emit set_disk reinitialized].
  rewrite Hreg, saved_saved, Henv, Hl'.
  pose proof (reinitialized_authState c s) as Ha. unfold reinitialized in Ha.
  cbn [authState] in Ha.
  subst s'. cbn [Config authState dbConn os announced emit set_disk
                 reinitialized hd environ homeDir newLoggerFails
                 generateCertFails].
  rewrite Hl. by destruct s as [? ? ? ? ? ? []].
Qed.

Lemma SaveConfig_again_witness :
  ∃ s'',
    SaveConfig (Some new_config)
      (state_of (SaveConfig (Some new_config) running)) = Ok None s'' ∧
    registry s'' = registry (state_of (SaveConfig (Some new_config) running)).
Proof.
  destruct (SaveConfig_again new_config running
              (state_of (SaveConfig (Some new_config) running)))
    as (s'' & H & _ & Hr & _).
  - apply Ok_state_of. vm_compute. reflexivity.
  - exists s''. split; [exact H|exact Hr].
Defined.

(** ** Authentication after start-up *)





(** ** The certificate *)

(** X14: [InitTLS] resolves the certificate and key paths in local
    variables only. However it ends, [Config] (so the two paths in it),
    [ConfigFile], [Log], the registry, the environment and the state of
    authentication and database are what they were; and nothing is
    removed from the disk. *)
Theorem InitTLS_frame (s : state) :
  let s' := state_of (InitTLS s) in
  Config s' = Config s ∧ ConfigFile s' = ConfigFile s ∧ Log s' = Log s ∧
  registry s' = registry s ∧ authState s' = authState s ∧
  dbConn s' = dbConn s ∧ environ (os s') = environ (os s) ∧
  ∀ p, fs.Exists (hd (os s)) p = true → fs.Exists (hd (os s')) p = true.
Proof.
  unfold InitTLS, InitTLS_with, bind, Config_deref, viper_ConfigFileUsed,
    fs_Exists, gets, Log_Infof, tlsutil_CheckAndGenerateCert, check, ret,
    fatal.
  destruct (Config s) as [c|] eqn:Hc; [|by rewrite ?Hc].
  set (cert := Resolve _ (config.TLS_Cert _)).
  set (key := Resolve _ (config.TLS_Key _)).
  destruct (fs.Exists (hd (os s)) cert) eqn:E1,
           (fs.Exists (hd (os s)) key) eqn:E2; cbn [negb orb andb].
  1: { cbn [os hd]. rewrite E1, E2. cbn. by rewrite ?Hc. }
  all: destruct (Log s) as [l|] eqn:Hl; [|cbn; by rewrite ?Hc, ?Hl].
  all: cbn [emit os hd]; rewrite E1, E2; cbn [andb].
  all: destruct (generateCertFails (os s)); [cbn; by rewrite ?Hc, ?Hl|].
  all: destruct (fs.WriteFile (hd (os s)) cert Blob) as [d1|e1] eqn:W1;
    [|cbn; by rewrite ?Hc, ?Hl].
  all: destruct (fs.WriteFile d1 key Blob) as [d2|e2] eqn:W2;
    [|cbn; by rewrite ?Hc, ?Hl].
  all: cbn; rewrite ?Hc, ?Hl; repeat split; try done.
  all: intros p Hp; eapply WriteFile_Exists_mono; [exact W2|].
  all: eapply WriteFile_Exists_mono; [exact W1|done].
Qed.

(** X15: with certificate and key both in place, [InitTLS] does nothing:
    it returns without a log line and leaves the state as it is. *)
Theorem InitTLS_present (s : state) (c : config.Config) :
  Config s = Some c →
  fs.Exists (hd (os s)) (tls_paths c s).1 = true →
  fs.Exists (hd (os s)) (tls_paths c s).2 = true →
  InitTLS s = Ok tt s.
Proof.
  unfold tls_paths. cbn [fst snd]. intros Hc E1 E2.
  unfold InitTLS, InitTLS_with, bind, Config_deref, viper_ConfigFileUsed,
    fs_Exists, gets, Log_Infof, tlsutil_CheckAndGenerateCert, check, ret.
  rewrite Hc, E1, E2. cbn [negb orb]. by rewrite E1, E2.
Qed.

(** X16: [InitTLS] needs [Log] as soon as the certificate or the key is
    missing: with [Log] nil it panics on the log line, before anything is
    generated, the state untouched. With [Config] nil it panics at
    once. *)
Theorem InitTLS_nil_Log (s : state) :
  Log s = None →
  (∀ c, Config s = Some c →
        fs.Exists (hd (os s)) (tls_paths c s).1
        && fs.Exists (hd (os s)) (tls_paths c s).2 = false) →
  InitTLS s = Panic s.
Proof.
  intros Hl Hm.
  unfold InitTLS, InitTLS_with, bind, Config_deref, viper_ConfigFileUsed,
    fs_Exists, gets, Log_Infof.
  destruct (Config s) as [c|]; [|done].
  specialize (Hm c eq_refl). unfold tls_paths in Hm. cbn [fst snd] in Hm.
  apply andb_false_iff in Hm as [-> | ->]; cbn [negb orb];
    rewrite ?orb_true_r; by rewrite Hl.
Qed.

Lemma InitTLS_present_witness :
  let s := state_of (startup no_flags server_json certified) in
  InitTLS s = Ok tt s.
Proof.
  intros s.
  refine (InitTLS_present s
            (default config.zero (Config s)) _ _ _);
    vm_compute; reflexivity.
Defined.

Lemma InitTLS_nil_Log_witness :
  let s := state_of (SaveConfig (Some new_config) (boot installed)) in
  InitTLS s = Panic s.
Proof.
  intros s. apply InitTLS_nil_Log.
  - vm_compute. reflexivity.
  - intros c Hc. vm_compute in Hc. injection Hc as <-.
    vm_compute. reflexivity.
Defined.

(** ** Binding the flags *)

Lemma bindAll_frame cmd l v :
  viper.configFile (bindAll cmd l v) = viper.configFile v ∧
  viper.configType (bindAll cmd l v) = viper.configType v ∧
  viper.envPrefix (bindAll cmd l v) = viper.envPrefix v ∧
  viper.envKeyReplacer (bindAll cmd l v) = viper.envKeyReplacer v ∧
  viper.automaticEnvApplied (bindAll cmd l v) = viper.automaticEnvApplied v.
Proof.
  revert v. induction l as [|[k0 fl0] l IH]; intros v; [done|].
  rewrite bindAll_cons.
  destruct (IH (viper.BindPFlag k0 (cmd !! fl0) v)) as (-> & -> & -> & -> & ->).
  by destruct (cmd !! fl0).
Qed.

(** X17: [InitDefaults] always returns. It stores the path it is given in
    [ConfigFile] and binds each of the 28 keys to the flag of its name
    when the command declares that flag; a key whose flag the command does
    not declare keeps the binding it had, as does every other key. Values
    set with [viper.Set], the file tier, [Config], [Log] and the world are
    left alone: [InitDefaults] reads no file and no environment. *)
Theorem InitDefaults_binds (cmd : gmap string viper.flag) (cfgFile : string)
    (s : state) :
  ∃ s',
    InitDefaults cmd cfgFile s = Ok tt s' ∧
    ConfigFile s' = cfgFile ∧
    (∀ k fl, (k, fl) ∈ flagBindings →
             viper.pflags (registry s') !! k
             = cmd !! fl ∪ viper.pflags (registry s) !! k) ∧
    (∀ k, k ∉ flagBindings.*1 →
          viper.pflags (registry s') !! k = viper.pflags (registry s) !! k) ∧
    viper.override (registry s') = viper.override (registry s) ∧
    viper.config (registry s') = viper.config (registry s) ∧
    viper.configFile (registry s') = viper.configFile (registry s) ∧
    Config s' = Config s ∧ Log s' = Log s ∧ os s' = os s ∧
    trace s' = trace s.
Proof.
  eexists. split; [apply InitDefaults_Ok|].
  cbn [ConfigFile registry Config Log os trace set_registry set_ConfigFile].
  destruct (bindAll_fields cmd flagBindings (registry s)) as [Ho Hc].
  destruct (bindAll_frame cmd flagBindings (registry s)) as (Hf & _).
  repeat split; try done.
  - intros k fl. apply bindAll_pflags, flagBindings_NoDup.
  - intros k. apply bindAll_pflags_other.
Qed.

(** ** Restarting on a saved configuration *)



(** ** Members the master application's configuration does not know *)

Section Unmarshal.

Context {EtcdConfig GRPCConfig : Type}.
Context (etcd_zero : EtcdConfig) (grpc_zero : GRPCConfig).
Context (decode_etcd :
           app.json → EtcdConfig → EtcdConfig * option app.json_error).
Context (decode_grpc :
           app.json → GRPCConfig → GRPCConfig * option app.json_error).

#[local] Abbreviation Config := (app.Config EtcdConfig GRPCConfig).
#[local] Abbreviation zero :=
  (app.zero EtcdConfig GRPCConfig etcd_zero grpc_zero).
#[local] Abbreviation decode_member :=
  (app.decode_member EtcdConfig GRPCConfig decode_etcd decode_grpc).
#[local] Abbreviation ReadAndParseConfig :=
  (app.ReadAndParseConfig EtcdConfig GRPCConfig etcd_zero grpc_zero
     decode_etcd decode_grpc).




(** A member under another key leaves the certificate path alone. *)
Lemma decode_member_Cert (acc : Config * option app.json_error) key j :
  app.key_is key "cert" = false →
  app.Cert _ _ (decode_member acc (key, j)).1 = app.Cert _ _ acc.1.
Proof.
  intros H. destruct acc as [c e]. unfold app.decode_member. rewrite H.
  repeat case_match; done.
Qed.

Lemma decode_members_Cert members (acc : Config * option app.json_error) :
  (∀ key j, (key, j) ∈ members → app.key_is key "cert" = false) →
  app.Cert _ _ (fold_left decode_member members acc).1 = app.Cert _ _ acc.1.
Proof.
  revert acc. induction members as [|[key j] members IH]; intros acc H;
    [done|].
  cbn [fold_left]. rewrite IH.
  - apply decode_member_Cert. apply (H key j). by left.
  - intros key' j' Hin. apply (H key' j'). by right.
Qed.

(** X20: the certificate path comes from the file alone. When the file
    holds a JSON object with no member under the key [cert], the returned
    [Config] has the empty certificate path, whatever the other members
    are and whether or not decoding them reports an error. *)
Theorem ReadAndParseConfig_no_cert (files : gmap string app.content)
    (configPath : string) (members : list (string * app.json)) :
  files !! configPath = Some (app.JSON (app.JObject members)) →
  (∀ key j, (key, j) ∈ members → app.key_is key "cert" = false) →
  app.Cert _ _ (ReadAndParseConfig files configPath).1 = "".
Proof.
  intros Hf Hm. unfold app.ReadAndParseConfig. rewrite Hf.
  unfold app.Unmarshal.
  pose proof (decode_members_Cert members (zero, None) Hm) as Hfold.
  destruct (fold_left _ _ _) as [c [e|]]; exact Hfold.
Qed.

End Unmarshal.


Lemma ReadAndParseConfig_no_cert_witness :
  let no_section := λ (_ : app.json) (x : unit), (x, @None app.json_error) in
  app.Cert unit unit
    (app.ReadAndParseConfig unit unit tt tt no_section no_section
       {[ "/etc/abstruse/master.json" := keyless_json ]}
       "/etc/abstruse/master.json").1
  = "".
Proof.
  intros no_section.
  apply (ReadAndParseConfig_no_cert tt tt no_section no_section _ _
           [ ("key", app.JNumber "5"); ("log_level", app.JString "debug") ]).
  - reflexivity.
  - intros key j Hin. rewrite !elem_of_cons, elem_of_nil in Hin.
    destruct Hin as [Hin|[Hin|[]]]; by injection Hin as -> _.
Defined.

(** ** After start-up *)

(** X21: once [InitConfig] has returned, the nil pointers are gone:
    [InitTLS], [InitDB] and [SaveConfig] of a configuration that is not
    nil cannot panic, since [Config] and [Log] are both assigned. They
    return or, where they call [fatal], exit. *)
Theorem started_no_panic (s s' : state) (u : unit) :
  InitConfig s = Ok u s' →
  (∀ s'', InitTLS s' ≠ Panic s'') ∧
  (∃ s'', InitDB s' = Ok tt s'') ∧
  (∀ c, ∃ r s'', SaveConfig (Some c) s' = Ok r s'').
Proof.
  intros H. pose proof (InitConfig_cases s) as Hc.
  destruct (located s) as [cf|e]; [|rewrite Hc in H; discriminate].
  rewrite H in Hc.
  destruct Hc as (m & c0 & _ & _ & _ & _ & _ & Hcfg & Hlog & _).
  split; [|split].
  - intros s''.
    unfold InitTLS, InitTLS_with, bind, Config_deref, viper_ConfigFileUsed,
      fs_Exists, gets, Log_Infof, tlsutil_CheckAndGenerateCert, check, ret,
      fatal.
    rewrite Hcfg.
    destruct (negb _ || negb _); [rewrite Hlog|];
      repeat (case_match; try discriminate).
  - unfold InitDB, bind, Config_deref, gets, db_Connect, modify.
    rewrite Hcfg. by eexists.
  - intros c. pose proof (SaveConfig_logged c s' _ Hlog) as Hs.
    cbv zeta in Hs. destruct (fs.WriteFile _ _ _).
    + by eexists _, _.
    + destruct Hs as [_ Hs]. by eexists _, _.
Qed.

Lemma started_no_panic_witness :
  let s := state_of (InitDefaults no_flags server_json (boot installed)) in
  ∃ s'', InitDB (state_of (InitConfig s)) = Ok tt s''.
Proof.
  intros s.
  refine (proj1 (proj2 (started_no_panic s (state_of (InitConfig s)) tt _))).
  apply Ok_state_of. vm_compute. reflexivity.
Defined.
